(** * TikTok comment manager: the comment lifecycle pipeline

    A shallow embedding of the parts of [ai_handler.py], [scraper.py],
    [backend/database.py] and [app.py] that carry the comment lifecycle:
    batch reply generation, reply truncation, comment extraction with
    self-filtering, reply submission, the comment store and the moderation
    and publication endpoints.

    Conventions.
    - A Python [str] is a list of Unicode code points ([pystr]).
    - A Python call that may raise returns a [pyresult]; the exception type
      [exn] stands for instances of [Exception] (what [except Exception]
      catches).
    - Code that talks to the outside world (the completion service, the
      browser) is a finite command tree ([Eff.prog]): each node is one
      outbound call, its children are indexed by what the world answers.
    - Logging is not modelled. *)

From Stdlib Require Import ZArith NArith QArith List String Ascii DecimalString.
From Stdlib Require Floats.SpecFloat.
From stdpp Require Import base decidable option list numbers.

Local Open Scope Z_scope.

(** ** Python prelude *)

Module Py.

(** A [str]: a sequence of code points. [len] and slicing count code points. *)
Definition pystr : Type := list N.

(** String literals. A literal is written as in the source; its bytes are
    UTF-8 and are decoded here into code points. [need] counts the
    continuation bytes still expected, [acc] holds the bits read so far. *)
Fixpoint utf8_go (bs : list N) (need : nat) (acc : N) : pystr :=
  match bs with
  | [] => []
  | b :: bs' =>
      match need with
      | S k =>
          let acc' := (acc * 64 + b mod 64)%N in
          match k with
          | O => acc' :: utf8_go bs' 0 0%N
          | S _ => utf8_go bs' k acc'
          end
      | O =>
          if (b <? 128)%N then b :: utf8_go bs' 0 0%N
          else if (b <? 224)%N then utf8_go bs' 1 (b mod 32)%N
          else if (b <? 240)%N then utf8_go bs' 2 (b mod 16)%N
          else utf8_go bs' 3 (b mod 8)%N
      end
  end.

Definition py (s : string) : pystr :=
  utf8_go (map N_of_ascii (list_ascii_of_string s)) 0 0%N.

(** The double quote character, and a literal between double quotes. *)
Definition dq : pystr := [34%N].
Definition q (s : string) : pystr := dq ++ py s ++ dq.

Definition len {A} (l : list A) : Z := Z.of_nat (length l).

(** Instances of [Exception]. [HTTPException] carries FastAPI's status code
    and detail; [Exception_] is a bare [Exception(msg)]. *)
Inductive exn : Type :=
  | JSONDecodeError
  | AttributeError
  | TypeError
  | IndexError
  | KeyError
  | NoSuchElementException
  | TimeoutException
  | WebDriverException
  | APIError
  | PyperclipException
  | HTTPException (status_code : Z) (detail : pystr)
  | Exception_ (msg : pystr).

Inductive pyresult (A : Type) : Type :=
  | Ok (a : A)
  | Raise (e : exn).
Arguments Ok {A} a.
Arguments Raise {A} e.

Definition rbind {A B} (r : pyresult A) (f : A -> pyresult B) : pyresult B :=
  match r with
  | Ok a => f a
  | Raise e => Raise e
  end.

Definition raises {A} (r : pyresult A) : Prop := exists e, r = Raise e.

(** [try: r / except NoSuchElementException: fallback]. *)
Definition except_no_such_element {A} (r fallback : pyresult A) : pyresult A :=
  match r with
  | Ok a => Ok a
  | Raise NoSuchElementException => fallback
  | Raise e => Raise e
  end.

(** [[f(x) for x in xs]] where [f] may raise: left to right, the first
    exception aborts the comprehension. *)
Fixpoint comprehension {A B} (f : A -> pyresult B) (xs : list A) : pyresult (list B) :=
  match xs with
  | [] => Ok []
  | x :: xs' =>
      rbind (f x) (fun y => rbind (comprehension f xs') (fun ys => Ok (y :: ys)))
  end.

(** [Py_UNICODE_ISSPACE]: the characters [str.strip()] removes. *)
Definition isspace (c : N) : bool :=
  ((9 <=? c) && (c <=? 13) || (28 <=? c) && (c <=? 32)
   || (c =? 133) || (c =? 160) || (c =? 5760)
   || (8192 <=? c) && (c <=? 8202)
   || (c =? 8232) || (c =? 8233) || (c =? 8239) || (c =? 8287)
   || (c =? 12288))%N.

Fixpoint lstrip (s : pystr) : pystr :=
  match s with
  | [] => []
  | c :: s' => if isspace c then lstrip s' else s
  end.

Definition rstrip (s : pystr) : pystr := rev (lstrip (rev s)).

Definition strip (s : pystr) : pystr := rstrip (lstrip s).

(** [str.lower()], one code point at a time. The mapping below is Python's
    on Basic Latin and Latin-1 Supplement (A-Z, and U+00C0..U+00DE except the
    multiplication sign), and on every code point that has no case, such as
    digits, spaces, punctuation and emoji. Cased letters of other scripts are
    left as they are here, whereas Python lowers them. *)
Definition lower_cp (c : N) : N :=
  (if (65 <=? c) && (c <=? 90) then c + 32
   else if (192 <=? c) && (c <=? 222) && negb (c =? 215) then c + 32
   else c)%N.

Definition lower (s : pystr) : pystr := map lower_cp s.

Fixpoint startswith (s p : pystr) : bool :=
  match p, s with
  | [], _ => true
  | _ :: _, [] => false
  | a :: p', b :: s' => (a =? b)%N && startswith s' p'
  end.

(** [sub in s]. *)
Fixpoint contains (sub s : pystr) : bool :=
  startswith s sub ||
  match s with
  | [] => false
  | _ :: s' => contains sub s'
  end.

(** [s.split(sep)] for a non-empty [sep]: scan from the left, cut at each
    non-overlapping occurrence. [skip] counts the characters of a matched
    separator still to be passed over; [cur] is the current piece, reversed. *)
Fixpoint split_go (sep s : pystr) (skip : nat) (cur : pystr) : list pystr :=
  match s with
  | [] => [rev cur]
  | c :: s' =>
      match skip with
      | S k => split_go sep s' k cur
      | O =>
          if startswith s sep
          then rev cur :: split_go sep s' (length sep - 1) []
          else split_go sep s' 0 (c :: cur)
      end
  end.

Definition split (s sep : pystr) : list pystr := split_go sep s 0 [].

(** [l[i]] for [i >= 0]. *)
Definition index {A} (l : list A) (i : nat) : pyresult A :=
  match nth_error l i with
  | Some a => Ok a
  | None => Raise IndexError
  end.

(** [l[-1]]. *)
Definition index_last {A} (l : list A) : pyresult A :=
  match rev l with
  | a :: _ => Ok a
  | [] => Raise IndexError
  end.

(** [s[:stop]]: a negative [stop] counts from the end, clamped at 0. *)
Definition slice_to {A} (s : list A) (stop : Z) : list A :=
  if 0 <=? stop then take (Z.to_nat stop) s
  else take (Z.to_nat (len s + stop)) s.

(** [sep.join(parts)]. *)
Fixpoint join (sep : pystr) (parts : list pystr) : pystr :=
  match parts with
  | [] => []
  | [p] => p
  | p :: ps => p ++ sep ++ join sep ps
  end.

(** [str(n)] for an [int]. *)
Definition str_of_int (n : Z) : pystr :=
  py (DecimalString.NilZero.string_of_int (Z.to_int n)).

(** Truth value of a [str]. *)
Definition truthy (s : pystr) : bool :=
  match s with
  | [] => false
  | _ :: _ => true
  end.

(** Two identities differ at most in letter case: same length, and at each
    position the two characters have the same lower-case form. *)
Definition same_up_to_case (a b : pystr) : Prop :=
  Forall2 (fun x y => lower_cp x = lower_cp y) a b.

(** [sub] occurs in [s] with something before or after it. *)
Definition proper_substring (sub s : pystr) : Prop :=
  exists before after, s = before ++ sub ++ after /\ before ++ after <> [].

End Py.
Import Py.

(** ** Outbound calls as command trees *)

Module Eff.
Section Prog.
Context {cmd : Type} (answer : cmd -> Type).

(** A program that ends with a value of [R] after finitely many calls. *)
Inductive prog (R : Type) : Type :=
  | Ret (r : R)
  | Call (c : cmd) (k : answer c -> prog R).
Arguments Ret {R} r.
Arguments Call {R} c k.

(** Sequencing of code that may raise: an exception skips the rest. *)
Fixpoint bind {A B} (m : prog (pyresult A)) (f : A -> prog (pyresult B))
  : prog (pyresult B) :=
  match m with
  | Ret (Ok a) => f a
  | Ret (Raise e) => Ret (Raise e)
  | Call c k => Call c (fun a => bind (k a) f)
  end.

(** [try: body / except Exception as e: handler(e)]. *)
Fixpoint try_except {A} (body : prog (pyresult A)) (handler : exn -> prog (pyresult A))
  : prog (pyresult A) :=
  match body with
  | Ret (Ok a) => Ret (Ok a)
  | Ret (Raise e) => handler e
  | Call c k => Call c (fun a => try_except (k a) handler)
  end.

(** Lift a computation that makes no call. *)
Definition pure {A} (r : pyresult A) : prog (pyresult A) := Ret r.

(** A world answers each call and moves on. *)
Definition world (W : Type) : Type := forall c : cmd, W -> answer c * W.

(** Run a program against a world; also return the calls made, in order. *)
Fixpoint exec {W R} (h : world W) (p : prog R) (w : W) : R * W * list cmd :=
  match p with
  | Ret r => (r, w, [])
  | Call c k =>
      let '(a, w1) := h c w in
      let '(r, w2, calls) := exec h (k a) w1 in
      (r, w2, c :: calls)
  end.

Definition result {W R} (h : world W) (p : prog R) (w : W) : R := (exec h p w).1.1.
Definition calls {W R} (h : world W) (p : prog R) (w : W) : list cmd := (exec h p w).2.
Definition final {W R} (h : world W) (p : prog R) (w : W) : W := (exec h p w).1.2.

End Prog.
Arguments Ret {cmd answer R} r.
Arguments Call {cmd answer R} c k.
Arguments bind {cmd answer A B} m f.
Arguments try_except {cmd answer A} body handler.
Arguments pure {cmd answer A} r.
Arguments exec {cmd answer W R} h p w.
Arguments result {cmd answer W R} h p w.
Arguments calls {cmd answer W R} h p w.
Arguments final {cmd answer W R} h p w.
End Eff.

(** ** Python values that cross module boundaries *)

Module Json.

(** A decoded JSON document, as [json.loads] builds it: [dict] (insertion
    order, keys distinct), [list], [str], [int], [float], [bool], [None].
    Values of this type also stand for the Python objects the handler
    returns in its reply lists and the endpoints return as response bodies. *)
#[warnings="-register-all"]
Inductive json : Type :=
  | JNull
  | JBool (b : bool)
  | JInt (n : Z)
  | JFloat (f : SpecFloat.spec_float)
  | JStr (s : pystr)
  | JArr (items : list json)
  | JObj (members : list (pystr * json)).

Fixpoint assoc (key : pystr) (members : list (pystr * json)) : option json :=
  match members with
  | [] => None
  | (k, v) :: rest => if bool_decide (k = key) then Some v else assoc key rest
  end.

(** [obj.get(key, default)]: only a [dict] has [get]. *)
Definition get (obj : json) (key : pystr) (dflt : json) : pyresult json :=
  match obj with
  | JObj members => Ok (default dflt (assoc key members))
  | _ => Raise AttributeError
  end.

(** What [for item in v] yields: the elements of a list, the characters of
    a string, the keys of a dict; anything else is not iterable. *)
Definition iter (v : json) : pyresult (list json) :=
  match v with
  | JArr items => Ok items
  | JStr s => Ok (map (fun c => JStr [c]) s)
  | JObj members => Ok (map (fun kv => JStr kv.1) members)
  | _ => Raise TypeError
  end.

End Json.
Import Json.

(** ** ai_handler.py *)

Module AIHandler.
Import Eff.

(** One input comment: the keys the generator reads, both present in every
    comment the pipeline passes in. *)
Record comment : Type := {
  username : pystr;
  comment_text : pystr
}.

(** The generator object: the model name read from the environment. *)
Record AIResponseGenerator : Type := {
  model : pystr
}.

Record message : Type := {
  role : pystr;
  content : pystr
}.

Record completion_request : Type := {
  req_model : pystr;
  req_messages : list message;
  req_max_tokens : Z;
  req_temperature : Q
}.

(** The one outbound call of this module. The answer is either an exception
    or the completion, of which the handler reads
    [choices[i].message.content] only: one entry per choice, [None] when the
    content is absent. *)
Inductive cmd : Type :=
  | chat_completions_create (r : completion_request).

Definition answer (c : cmd) : Type := pyresult (list (option pystr)).

Definition M (A : Type) : Type := prog answer (pyresult A).

Fixpoint prompt_lines (i : Z) (comments_data : list comment) : pystr :=
  match comments_data with
  | [] => []
  | c :: rest =>
      py "
" ++ str_of_int i ++ py ". Utilisateur: " ++ username c
      ++ py " | Commentaire: " ++ dq ++ comment_text c ++ dq
      ++ prompt_lines (i + 1) rest
  end.

Definition _build_batch_prompt (comments_data : list comment) (video_title : pystr)
    (hashtags : list pystr) : pystr :=
  let hashtags_str :=
    match hashtags with
    | [] => py "Aucun hashtag"
    | _ => join (py ", ") hashtags
    end in
  py "Tu es Copywriter GPT, un copywriter chaleureux et empathique pour TikTok. Tu réponds aux commentaires sur les vidéos tiktok.

CONTEXTE DE LA VIDÉO:
- Titre: '" ++ video_title ++ py "'
- Hashtags: " ++ hashtags_str ++ py "
- Audience cible: Communauté
- Objectif: Créer de l'engagement authentique et chaleureux

INSTRUCTIONS IMPORTANTES:
- Réponds à chaque commentaire avec MAXIMUM 114 caractères
- Commence par " ++ q "Coucou [nom]" ++ py " ou simplement " ++ q "Hello" ++ py " si le nom est long
- Ton chaleureux, amical, comme une grande sœur bienveillante
- Ne donne JAMAIS de conseils médicaux, juridiques ou religieux précis
- Évite les questions ouvertes qui créent des débats
- Reste positive, encourageante et authentique
- Utilise des emojis appropriés mais avec modération

COMMENTAIRES À TRAITER:
"
  ++ prompt_lines 1 comments_data
  ++ py "

RÉPONSE ATTENDUE:
Retourne UNIQUEMENT un JSON valide avec ce format exact (sans markdown, sans backticks):
{
    " ++ q "responses" ++ py ": [
        {" ++ q "comment_id" ++ py ": 1, " ++ q "username" ++ py ": " ++ q "nom_utilisateur" ++ py ", " ++ q "comment_text" ++ py ": " ++ q "texte_commentaire" ++ py ", " ++ q "chatgpt_response" ++ py ": " ++ q "ta_réponse_114_chars_max" ++ py "},
        {" ++ q "comment_id" ++ py ": 2, " ++ q "username" ++ py ": " ++ q "nom_utilisateur" ++ py ", " ++ q "comment_text" ++ py ": " ++ q "texte_commentaire" ++ py ", " ++ q "chatgpt_response" ++ py ": " ++ q "ta_réponse_114_chars_max" ++ py "}
    ]
}

RAPPEL CRITIQUE: Chaque réponse doit faire MAXIMUM 114 caractères!
".

(** [reply] is what the parser reads from the entry [item] of a [responses]
    array: the entry is an object, and the reply is its [chatgpt_response],
    or the parser's stock reply when the object has no such key. *)
Definition reply_of_entry (item reply : json) : Prop :=
  exists fields,
    item = JObj fields
    /\ reply = default (JStr (py "Hello! Merci ")) (assoc (py "chatgpt_response") fields).

Section Decoder.

(** [json.loads], from Python's standard library: the decoded document, or
    the exception it raises ([JSONDecodeError] on malformed text). *)
Variable json_loads : pystr -> pyresult json.

(** The text handed to [json.loads]: stripped, an optional code fence
    removed, stripped again. *)
Definition clean (response_text : pystr) : pyresult pystr :=
  let cleaned_text := strip response_text in
  rbind
    (if contains (py "```json") cleaned_text then
       rbind (index (split cleaned_text (py "```json")) 1)
             (fun inner => index (split inner (py "```")) 0)
     else if contains (py "```") cleaned_text then
       rbind (index (split cleaned_text (py "```")) 1)
             (fun inner => index (split inner (py "```")) 0)
     else Ok cleaned_text)
    (fun cleaned_text => Ok (strip cleaned_text)).

Definition _parse_json_response (response_text : pystr) : pyresult (list json) :=
  let body :=
    rbind (clean response_text) (fun cleaned_text =>
    rbind (json_loads cleaned_text) (fun parsed_data =>
    rbind (get parsed_data (py "responses") (JArr [])) (fun responses =>
    rbind (iter responses) (fun items =>
    comprehension
      (fun item => get item (py "chatgpt_response") (JStr (py "Hello! Merci ")))
      items)))) in
  match body with
  | Raise JSONDecodeError => Raise JSONDecodeError
  | other => other
  end.

(** The reply used for every comment when generation fails. *)
Definition default_reply : json := JStr (py "Merci pour ton commentaire").

Definition batch_request (self : AIResponseGenerator) (prompt : pystr) : completion_request :=
  {| req_model := model self;
     req_messages :=
       [ {| role := py "system";
            content := py "Tu es un assistant qui retourne uniquement du JSON valide." |};
         {| role := py "user"; content := prompt |} ];
     req_max_tokens := 4000;
     req_temperature := 7 # 10 |}.

(** [response.choices[0].message.content.strip()]. *)
Definition first_content (response : list (option pystr)) : pyresult pystr :=
  rbind (index response 0) (fun content =>
    match content with
    | Some text => Ok (strip text)
    | None => Raise AttributeError
    end).

(** What the body of the [try] in [generate_batch_responses] evaluates to
    once the completion service has answered [a]. *)
Definition attempt (a : pyresult (list (option pystr))) : pyresult (list json) :=
  rbind a (fun response =>
  rbind (first_content response) _parse_json_response).

Definition generate_batch_responses (self : AIResponseGenerator)
    (comments_data : list comment) (video_title : pystr) (hashtags : list pystr)
    : M (list json) :=
  match comments_data with
  | [] => Ret (Ok [])
  | _ :: _ =>
      try_except
        (let prompt := _build_batch_prompt comments_data video_title hashtags in
         bind (Call (chat_completions_create (batch_request self prompt)) Ret)
           (fun response =>
         bind (pure (first_content response)) (fun response_text =>
         bind (pure (_parse_json_response response_text)) (fun parsed_responses =>
         Ret (Ok parsed_responses)))))
        (fun _ => Ret (Ok (map (fun _ => default_reply) comments_data)))
  end.

End Decoder.

Definition validate_response_length (response : pystr) (max_length : Z) : bool :=
  len response <=? max_length.

(** [max_length] defaults to 114 in both methods. *)
Definition truncate_response (response : pystr) (max_length : Z) : pystr :=
  if len response <=? max_length then response
  else slice_to response (max_length - 3) ++ py "...".

End AIHandler.

(** ** scraper.py *)

Module Scraper.
Import Eff.

(** *** Extraction, over a snapshot of the loaded page

    [_extract_comments] only reads the page. A comment block is given by
    what each lookup inside it produces; every lookup may raise
    ([NoSuchElementException] when the node is absent, anything else when
    the driver fails). *)

(** The [a] node under the user name: its [href] attribute ([None] when the
    attribute is absent) and its rendered text. *)
Record link : Type := {
  href : pyresult (option pystr);
  link_text : pyresult pystr
}.

Record comment_block : Type := {
  (** which node of the page this is *)
  node : N;
  (** [find_element(".//div[@data-e2e='comment-username-1']//a")] *)
  username_element : pyresult link;
  (** [.text] of [find_element(".//p[contains(@class, 'TUXText') and ...]")] *)
  display_name_text : pyresult pystr;
  (** [.text] of [find_element(".//span[@data-e2e='comment-level-1']/p")] *)
  comment_text_text : pyresult pystr
}.

(** One entry of the list [_extract_comments] returns. *)
Record extracted : Type := {
  username : pystr;
  comment_text : pystr;
  comment_element : comment_block
}.

Definition excluded_username : pystr := py "soeur bonplan 🎀".

(** The first [try] of the loop body: the handle from the profile link, or
    the link text. [NoSuchElementException] leaves [username] empty. *)
Definition username_from_link (comment_block : comment_block) : pyresult pystr :=
  except_no_such_element
    (rbind (username_element comment_block) (fun username_element =>
     rbind (href username_element) (fun href =>
       if match href with
          | Some h => truthy h && contains (py "/@") h
          | None => false
          end
       then
         rbind (index_last (split (default [] href) (py "/@"))) (fun tail =>
         rbind (index (split tail (py "?")) 0) (fun handle =>
         Ok (py "@" ++ handle)))
       else rbind (link_text username_element) (fun t => Ok (strip t)))))
    (Ok []).

(** The second [try]: a non-empty display name replaces [username]. *)
Definition username_with_display_name (comment_block : comment_block) (username : pystr)
    : pyresult pystr :=
  except_no_such_element
    (rbind (display_name_text comment_block) (fun t =>
       let display_name := strip t in
       Ok (if truthy display_name then display_name else username)))
    (Ok username).

(** The identity the loop body holds in [username] when it reaches the
    self-filter. *)
Definition resolve_username (comment_block : comment_block) : pyresult pystr :=
  rbind (username_from_link comment_block) (username_with_display_name comment_block).

(** The self-filter test of the loop body. *)
Definition is_excluded (username : pystr) : bool :=
  bool_decide (strip (lower username) = lower excluded_username).

(** What one turn of the loop does to [comments_data]: [Some c] appends [c],
    [None] is a [continue]. *)
Definition extract_block (comment_block : comment_block) : option extracted :=
  let body : pyresult (option extracted) :=
    rbind (resolve_username comment_block) (fun username =>
      match comment_text_text comment_block with
      | Raise NoSuchElementException => Ok None
      | Raise e => Raise e
      | Ok t =>
          let comment_text := strip t in
          if is_excluded username then Ok None
          else Ok (Some {| username := username;
                           comment_text := comment_text;
                           comment_element := comment_block |})
      end) in
  match body with
  | Ok r => r
  | Raise _ => None
  end.

Fixpoint extract_loop (comment_blocks : list comment_block) (comments_data : list extracted)
    : list extracted :=
  match comment_blocks with
  | [] => comments_data
  | comment_block :: rest =>
      match extract_block comment_block with
      | Some c => extract_loop rest (comments_data ++ [c])
      | None => extract_loop rest comments_data
      end
  end.

(** [found] is what
    [find_elements("//div[contains(@class, 'DivCommentContentWrapper')]")]
    produces. *)
Definition _extract_comments (found : pyresult (list comment_block)) : list extracted :=
  match found with
  | Ok comment_blocks => extract_loop comment_blocks []
  | Raise _ => []
  end.

(** *** Reply submission, against the live page *)

(** A handle on a page node, as the driver hands it out. *)
Definition element : Type := N.

Inductive cmd : Type :=
  | current_url
  | driver_get (url : pystr)
  | sleep (seconds : Q)
  | find_elements (xpath : pystr)
  | find_element_in (parent : element) (xpath : pystr)
  | element_text (e : element)
  | get_attribute (e : element) (name : pystr)
  | execute_script (script : pystr) (arg : element)
  | wait_visible (timeout : Z) (xpath : pystr)
  | pyperclip_copy (text : pystr)
  | send_keys (e : element) (keys : list pystr).

Definition answer (c : cmd) : Type :=
  match c with
  | current_url => pyresult pystr
  | driver_get _ => pyresult unit
  | sleep _ => unit
  | find_elements _ => pyresult (list element)
  | find_element_in _ _ => pyresult element
  | element_text _ => pyresult pystr
  | get_attribute _ _ => pyresult (option pystr)
  | execute_script _ _ => pyresult unit
  | wait_visible _ _ => pyresult element
  | pyperclip_copy _ => pyresult unit
  | send_keys _ _ => pyresult unit
  end.

Definition M (A : Type) : Type := prog answer (pyresult A).

(** A call whose answer is a result. *)
Definition call {A} (c : cmd) (same : answer c = pyresult A) : M A :=
  Call c (fun a => Ret (eq_rect _ (fun T => T) a _ same)).

Definition do_sleep (seconds : Q) : M unit :=
  Call (sleep seconds) (fun _ => Ret (Ok tt)).

Definition Keys_CONTROL : pystr := [57353%N].

Definition scrollIntoView : pystr :=
  py "arguments[0].scrollIntoView({block: 'center'});".
Definition click : pystr := py "arguments[0].click();".

Definition comment_blocks_xpath : pystr :=
  py "//div[contains(@class, 'DivCommentContentWrapper')]".
Definition username_link_xpath : pystr :=
  py ".//div[@data-e2e='comment-username-1']//a".
Definition reply_button_xpath : pystr := py ".//button[@data-e2e='reply-button']".
Definition reply_input_selectors : list pystr :=
  [ py "//div[@class='public-DraftEditorPlaceholder-inner' and contains(text(), 'Ajouter une réponse')]/following::div[@contenteditable='true'][1]";
    py "//div[@contenteditable='true' and @role='textbox']" ].
Definition publish_buttons_xpath : pystr :=
  py "//div[@data-e2e='comment-post' and @role='button' and @aria-disabled='false']".

(** [username.replace('@', '')]. *)
Definition without_at (username : pystr) : pystr :=
  filter (fun c => c <> 64%N) username.

(** The test of the target loop; the attribute is read only when the text
    does not match, and a missing attribute makes [in] raise. *)
Definition matches_user (username : pystr) (user_element : element) : M bool :=
  bind (call (element_text user_element) eq_refl) (fun text =>
    if contains username text then Ret (Ok true)
    else
      bind (call (get_attribute user_element (py "href")) eq_refl) (fun href =>
        match href with
        | Some h => Ret (Ok (contains (without_at username) h))
        | None => Ret (Raise TypeError)
        end)).

(** The target loop: the first block that matches; a block whose lookup
    or test raises is passed over. *)
Fixpoint find_target (username : pystr) (comment_blocks : list element) : M (option element) :=
  match comment_blocks with
  | [] => Ret (Ok None)
  | block :: rest =>
      bind
        (try_except
           (bind (call (find_element_in block username_link_xpath) eq_refl)
                 (matches_user username))
           (fun _ => Ret (Ok false)))
        (fun hit => if hit then Ret (Ok (Some block)) else find_target username rest)
  end.

(** The selector loop: the first selector whose wait does not time out. *)
Fixpoint find_reply_input (selectors : list pystr) : M (option element) :=
  match selectors with
  | [] => Ret (Ok None)
  | selector :: rest =>
      Call (wait_visible 10 selector) (fun a =>
        match a with
        | Ok reply_input => Ret (Ok (Some reply_input))
        | Raise TimeoutException => find_reply_input rest
        | Raise e => Ret (Raise e)
        end)
  end.

(** Navigate if needed and find the comment of [username]. *)
Definition locate_comment (video_url username : pystr) : M element :=
  bind (call current_url eq_refl) (fun url =>
  bind (if bool_decide (url <> video_url)
        then bind (call (driver_get video_url) eq_refl) (fun _ => do_sleep 3)
        else Ret (Ok tt)) (fun _ =>
  bind (call (find_elements comment_blocks_xpath) eq_refl) (fun comment_blocks =>
  bind (find_target username comment_blocks) (fun target_comment =>
    match target_comment with
    | Some block => Ret (Ok block)
    | None => Ret (Raise (Exception_ (py "Commentaire de " ++ username ++ py " non trouvé")))
    end)))).

(** Click the reply button of the target and find the reply input. *)
Definition open_reply_input (target_comment : element) : M element :=
  bind (call (find_element_in target_comment reply_button_xpath) eq_refl) (fun reply_button =>
  bind (call (execute_script scrollIntoView reply_button) eq_refl) (fun _ =>
  bind (do_sleep (1 # 2)) (fun _ =>
  bind (call (execute_script click reply_button) eq_refl) (fun _ =>
  bind (do_sleep 1) (fun _ =>
  bind (find_reply_input reply_input_selectors) (fun reply_input =>
    match reply_input with
    | Some e => Ret (Ok e)
    | None => Ret (Raise (Exception_ (py "Champ de réponse non trouvé")))
    end)))))).

(** Focus the input and enter the text: paste from the clipboard, or type
    the text when copying or pasting raises. *)
Definition enter_reply (reply_input : element) (reply_text : pystr) : M unit :=
  bind (call (execute_script scrollIntoView reply_input) eq_refl) (fun _ =>
  bind (do_sleep (1 # 2)) (fun _ =>
  bind (call (execute_script click reply_input) eq_refl) (fun _ =>
  bind (do_sleep (1 # 2)) (fun _ =>
  bind (try_except
          (bind (call (pyperclip_copy reply_text) eq_refl) (fun _ =>
           call (send_keys reply_input [Keys_CONTROL; py "v"]) eq_refl))
          (fun _ => call (send_keys reply_input [reply_text]) eq_refl)) (fun _ =>
  do_sleep 2))))).

(** Everything [reply_to_comment] does before it looks for the publish
    buttons. *)
Definition prepare_reply (video_url username reply_text : pystr) : M unit :=
  bind (locate_comment video_url username) (fun target_comment =>
  bind (open_reply_input target_comment) (fun reply_input =>
  enter_reply reply_input reply_text)).

(** The last step: look for the enabled publish buttons and click one. *)
Definition publish_reply : M unit :=
  bind (call (find_elements publish_buttons_xpath) eq_refl) (fun publish_buttons =>
    if 2 <=? len publish_buttons then
      bind (pure (index publish_buttons 1)) (fun publish_button =>
      bind (call (execute_script scrollIntoView publish_button) eq_refl) (fun _ =>
      bind (do_sleep 1) (fun _ =>
      bind (call (execute_script click publish_button) eq_refl) (fun _ =>
      do_sleep 3))))
    else Ret (Raise (Exception_ (py "Bouton publier non trouvé")))).

(** The whole method; its [except Exception] logs and raises again. *)
Definition reply_to_comment (video_url username reply_text : pystr) : M unit :=
  try_except
    (bind (prepare_reply video_url username reply_text) (fun _ => publish_reply))
    (fun e => Ret (Raise e)).

End Scraper.

(** ** backend/database.py *)

Module Database.

(** A row of the [comments] table. Timestamps are seconds on some clock. *)
Record comment_row : Type := {
  id : Z;
  video_url : pystr;
  account_id : Z;
  username : pystr;
  comment_text : pystr;
  ai_response : pystr;
  status : pystr;
  created_at : Z;
  updated_at : Z
}.

(** The [comments] table, in row order. The statements below neither read
    nor write the other tables. *)
Record Database : Type := {
  comments : list comment_row
}.

Definition with_status (status : pystr) (now : Z) (r : comment_row) : comment_row :=
  {| id := id r; video_url := video_url r; account_id := account_id r;
     username := username r; comment_text := comment_text r;
     ai_response := ai_response r;
     status := status;
     created_at := created_at r;
     updated_at := now |}.

Definition with_response (new_response status : pystr) (now : Z) (r : comment_row)
    : comment_row :=
  {| id := id r; video_url := video_url r; account_id := account_id r;
     username := username r; comment_text := comment_text r;
     ai_response := new_response;
     status := status;
     created_at := created_at r;
     updated_at := now |}.

(** [UPDATE comments SET ... WHERE id = ?]. *)
Definition update_where_id (comment_id : Z) (set : comment_row -> comment_row)
    (db : Database) : Database :=
  {| comments :=
       map (fun r => if bool_decide (id r = comment_id) then set r else r) (comments db) |}.

(** [SELECT * FROM comments WHERE id = ?], [fetchone()]. *)
Definition get_comment (db : Database) (comment_id : Z) : option comment_row :=
  find (fun r => bool_decide (id r = comment_id)) (comments db).

(** [SELECT * FROM comments WHERE id IN (...)], [fetchall()]. *)
Definition get_comments_by_ids (db : Database) (comment_ids : list Z) : list comment_row :=
  filter (fun r => id r ∈ comment_ids) (comments db).

(** [CURRENT_TIMESTAMP] is the time at which the statement runs. *)
Definition update_comment_status (CURRENT_TIMESTAMP : Z) (db : Database)
    (comment_id : Z) (status : pystr) : Database :=
  update_where_id comment_id (with_status status CURRENT_TIMESTAMP) db.

(** [status] defaults to ["validated"]. *)
Definition update_comment_response (CURRENT_TIMESTAMP : Z) (db : Database)
    (comment_id : Z) (new_response : pystr) (status : pystr) : Database :=
  update_where_id comment_id (with_response new_response status CURRENT_TIMESTAMP) db.

End Database.

(** ** app.py *)

Module App.

Record ValidateComment : Type := {
  comment_id : Z;
  action : pystr;
  modified_response : option pystr
}.

Record PublishRequest : Type := {
  comment_ids : list Z;
  account_id : Z
}.

(** A call handed to [background_tasks.add_task]. *)
Inductive task : Type :=
  | process_video_scraping (video_url : pystr) (account_id : Z)
  | process_comment_publishing (comment_ids : list Z) (account_id : Z).

(** What an endpoint can touch: the store, and the background tasks of the
    request being served. *)
Record state : Type := {
  db : Database.Database;
  background_tasks : list task
}.

Definition set_db (st : state) (db' : Database.Database) : state :=
  {| db := db'; background_tasks := background_tasks st |}.

Definition add_task (st : state) (t : task) : state :=
  {| db := db st; background_tasks := background_tasks st ++ [t] |}.

(** The body [validate_comment] answers with when it does not raise. *)
Definition ack (validation : ValidateComment) : json :=
  JObj [ (py "status", JStr (py "success"));
         (py "comment_id", JInt (comment_id validation));
         (py "action", JStr (action validation)) ].

Section Endpoints.

(** [str(e)] for an exception, as the library that defines it renders it. *)
Variable str_exn : exn -> pystr.

(** The clock the store reads while this request is served. *)
Variable CURRENT_TIMESTAMP : Z.

(** The [except Exception] every endpoint ends with. *)
Definition or_500 (r : pyresult json * state) : pyresult json * state :=
  match r with
  | (Raise e, st) => (Raise (HTTPException 500 (py "Erreur: " ++ str_exn e)), st)
  | (Ok body, st) => (Ok body, st)
  end.

Definition validate_comment (validation : ValidateComment) (st : state)
    : pyresult json * state :=
  or_500
    match Database.get_comment (db st) (comment_id validation) with
    | None => (Raise (HTTPException 404 (py "Commentaire non trouvé")), st)
    | Some _ =>
        let st' :=
          if bool_decide (action validation = py "validate") then
            set_db st (Database.update_comment_status CURRENT_TIMESTAMP (db st)
                         (comment_id validation) (py "validated"))
          else if bool_decide (action validation = py "reject") then
            set_db st (Database.update_comment_status CURRENT_TIMESTAMP (db st)
                         (comment_id validation) (py "rejected"))
          else if bool_decide (action validation = py "modify") then
            match modified_response validation with
            | Some text =>
                if truthy text then
                  set_db st (Database.update_comment_response CURRENT_TIMESTAMP (db st)
                               (comment_id validation) text (py "validated"))
                else st
            | None => st
            end
          else st in
        (Ok (ack validation), st')
    end.

Definition publish_comments (publish_data : PublishRequest) (st : state)
    : pyresult json * state :=
  or_500
    (let comments := Database.get_comments_by_ids (db st) (comment_ids publish_data) in
     let invalid_comments :=
       filter (fun c => Database.status c <> py "validated") comments in
     match invalid_comments with
     | _ :: _ =>
         (Raise (HTTPException 400
                   (str_of_int (len invalid_comments) ++ py " commentaires non validés")),
          st)
     | [] =>
         (Ok (JObj [ (py "status", JStr (py "processing"));
                     (py "message",
                      JStr (py "Publication de "
                            ++ str_of_int (len (comment_ids publish_data))
                            ++ py " commentaires en cours"));
                     (py "comment_count", JInt (len (comment_ids publish_data))) ]),
          add_task st (process_comment_publishing (comment_ids publish_data)
                         (account_id publish_data)))
     end).

End Endpoints.

End App.

(** ** Sample data

    Concrete inputs on which the properties below are exercised. *)

Module Samples.

(** *** Batch generation *)

Definition self : AIHandler.AIResponseGenerator := {| AIHandler.model := py "gpt-4" |}.

(** The two comments of the module's own test. *)
Definition comments : list AIHandler.comment :=
  [ {| AIHandler.username := py "fatima_dz";
       AIHandler.comment_text := py "MashaAllah super vidéo! Où tu as acheté ça?" |};
    {| AIHandler.username := py "muslima_paris";
       AIHandler.comment_text := py "Baraka Allahou fik pour le partage ma sœur" |} ].

Definition video_title : pystr := py "Mes bons plans du mois".
Definition hashtags : list pystr := [py "#bonplan"; py "#muslim"; py "#lifestyle"].

(** A completion service that gives the same answer to every request. *)
Definition answering (a : pyresult (list (option pystr)))
    : Eff.world AIHandler.answer unit :=
  fun _ w => (a, w).

(** A completion text that is not JSON. *)
Definition not_json : pystr := py "oops".

(** A fenced completion text with three replies. *)
Definition three_replies_text : pystr :=
  py "```json
{" ++ q "responses" ++ py ": [{" ++ q "comment_id" ++ py ": 1, " ++ q "chatgpt_response" ++ py ": " ++ q "Coucou Fatima" ++ py "}, {" ++ q "comment_id" ++ py ": 2, " ++ q "chatgpt_response" ++ py ": " ++ q "Coucou ma soeur" ++ py "}, {" ++ q "comment_id" ++ py ": 3, " ++ q "chatgpt_response" ++ py ": " ++ q "Hello" ++ py "}]}
```".

Definition three_replies_json : pystr :=
  py "{" ++ q "responses" ++ py ": [{" ++ q "comment_id" ++ py ": 1, " ++ q "chatgpt_response" ++ py ": " ++ q "Coucou Fatima" ++ py "}, {" ++ q "comment_id" ++ py ": 2, " ++ q "chatgpt_response" ++ py ": " ++ q "Coucou ma soeur" ++ py "}, {" ++ q "comment_id" ++ py ": 3, " ++ q "chatgpt_response" ++ py ": " ++ q "Hello" ++ py "}]}".

Definition three_replies_items : list json :=
  [ JObj [(py "comment_id", JInt 1); (py "chatgpt_response", JStr (py "Coucou Fatima"))];
    JObj [(py "comment_id", JInt 2); (py "chatgpt_response", JStr (py "Coucou ma soeur"))];
    JObj [(py "comment_id", JInt 3); (py "chatgpt_response", JStr (py "Hello"))] ].

(** [json.loads] on the two sample texts: [three_replies_json] decodes to
    the object below, [not_json] is rejected. No other text is decoded in
    the samples. *)
Definition json_loads (text : pystr) : pyresult json :=
  if bool_decide (text = three_replies_json)
  then Ok (JObj [(py "responses", JArr three_replies_items)])
  else Raise JSONDecodeError.

(** *** Extraction *)

(** A block of the operator, whose display name differs from the excluded
    identity in letter case only. *)
Definition operator_block : Scraper.comment_block :=
  {| Scraper.node := 1%N;
     Scraper.username_element :=
       Ok {| Scraper.href := Ok (Some (py "https://www.tiktok.com/@soeurbonplan?lang=fr"));
             Scraper.link_text := Ok (py "Soeur Bonplan 🎀") |};
     Scraper.display_name_text := Ok (py "Soeur BonPlan 🎀");
     Scraper.comment_text_text := Ok (py "Merci les filles") |}.

(** A block of someone whose display name contains the excluded identity. *)
Definition fan_block : Scraper.comment_block :=
  {| Scraper.node := 2%N;
     Scraper.username_element := Raise NoSuchElementException;
     Scraper.display_name_text := Ok (py "fan de soeur bonplan 🎀 !");
     Scraper.comment_text_text := Ok (py " Trop bien ") |}.

(** *** Reply submission *)

Definition video_url : pystr := py "https://www.tiktok.com/@soeurbonplan/video/7524405570321894678".

(** A page already on the video, with one comment block (node 10) whose
    user link (node 11) reads "fatima_dz", a reply button (node 12), a reply
    input (node 13), and the given enabled publish buttons; every action
    succeeds. *)
Definition page (publish_buttons : list Scraper.element) : Eff.world Scraper.answer unit :=
  fun c w =>
    match c return Scraper.answer c * unit with
    | Scraper.current_url => (Ok video_url, w)
    | Scraper.driver_get _ => (Ok tt, w)
    | Scraper.sleep _ => (tt, w)
    | Scraper.find_elements xpath =>
        (Ok (if bool_decide (xpath = Scraper.publish_buttons_xpath)
             then publish_buttons else [10%N]), w)
    | Scraper.find_element_in parent xpath =>
        (Ok (if bool_decide (xpath = Scraper.reply_button_xpath) then 12%N else 11%N), w)
    | Scraper.element_text _ => (Ok (py "fatima_dz"), w)
    | Scraper.get_attribute _ _ => (Ok None, w)
    | Scraper.execute_script _ _ => (Ok tt, w)
    | Scraper.wait_visible _ _ => (Ok 13%N, w)
    | Scraper.pyperclip_copy _ => (Ok tt, w)
    | Scraper.send_keys _ _ => (Ok tt, w)
    end.

(** *** Store and endpoints *)

Definition published_row : Database.comment_row :=
  {| Database.id := 1;
     Database.video_url := video_url;
     Database.account_id := 1;
     Database.username := py "fatima_dz";
     Database.comment_text := py "MashaAllah super vidéo!";
     Database.ai_response := py "Coucou Fatima";
     Database.status := py "published";
     Database.created_at := 100;
     Database.updated_at := 200 |}.

Definition validated_row : Database.comment_row :=
  {| Database.id := 2;
     Database.video_url := video_url;
     Database.account_id := 1;
     Database.username := py "muslima_paris";
     Database.comment_text := py "Baraka Allahou fik";
     Database.ai_response := py "Coucou ma soeur";
     Database.status := py "validated";
     Database.created_at := 100;
     Database.updated_at := 150 |}.

Definition pending_row : Database.comment_row :=
  {| Database.id := 3;
     Database.video_url := video_url;
     Database.account_id := 1;
     Database.username := py "lina";
     Database.comment_text := py "Top";
     Database.ai_response := py "Hello";
     Database.status := py "pending";
     Database.created_at := 100;
     Database.updated_at := 100 |}.

Definition store : App.state :=
  {| App.db := {| Database.comments := [published_row; validated_row; pending_row] |};
     App.background_tasks := [] |}.

(** [str(e)] as Starlette renders an [HTTPException]. *)
Definition str_exn (e : exn) : pystr :=
  match e with
  | HTTPException status_code detail => str_of_int status_code ++ py ": " ++ detail
  | Exception_ msg => msg
  | _ => []
  end.

End Samples.

(** ** ai_handler.py: the single-comment path *)

Module SingleResponse.
Import Eff AIHandler.

Definition single_prompt (username comment_text video_title : pystr)
    (hashtags : list pystr) : pystr :=
  let hashtags_str :=
    match hashtags with
    | [] => py "Aucun hashtag"
    | _ => join (py ", ") hashtags
    end in
  py "Tu es Copywriter GPT pour tiktok" ++ dq ++ py ".

CONTEXTE:
- Vidéo: '" ++ video_title ++ py "'
- Hashtags: " ++ hashtags_str ++ py "

COMMENTAIRE:
Utilisateur: " ++ username ++ py "
Commentaire: " ++ dq ++ comment_text ++ dq ++ py "

INSTRUCTIONS:
- Réponds en MAXIMUM 114 caractères
- Commence par " ++ dq ++ py "Hello " ++ username ++ q " ou " ++ py "Hello" ++ dq ++ py "
- Ton chaleureux de grande sœur
- Utilise expressions musulmanes naturelles
- Pas de conseils médicaux/juridiques/religieux précis

Retourne UNIQUEMENT la réponse (pas de JSON, juste le texte de la réponse).".

Definition single_request (self : AIResponseGenerator) (prompt : pystr)
    : completion_request :=
  {| req_model := model self;
     req_messages :=
       [ {| role := py "system";
            content := py "Tu es un copywriter TikTok chaleureux et empathique." |};
         {| role := py "user"; content := prompt |} ];
     req_max_tokens := 150;
     req_temperature := 7 # 10 |}.

(** The length check of the single path, written inline in the method. *)
Definition check_length (ai_response : pystr) : pystr :=
  if 114 <? len ai_response then slice_to ai_response 111 ++ py "..."
  else ai_response.

(** The reply returned when anything in the [try] raises. *)
Definition single_fallback (username : pystr) : pystr :=
  py "Hello " ++ username ++ py "! Merci pour ton message ".

Definition generate_single_response (self : AIResponseGenerator)
    (username comment_text video_title : pystr) (hashtags : list pystr) : M pystr :=
  try_except
    (let prompt := single_prompt username comment_text video_title hashtags in
     bind (Call (chat_completions_create (single_request self prompt)) Ret)
       (fun response =>
     bind (pure (first_content response)) (fun ai_response =>
     Ret (Ok (check_length ai_response)))))
    (fun _ => Ret (Ok (single_fallback username))).

End SingleResponse.

(** ** scraper.py: title and hashtags of the video

    [_extract_video_info] only reads the page, like [_extract_comments]:
    the page is given by what each lookup produces. *)

Module VideoInfo.

Record page : Type := {
  (** [.text] of [driver.find_element(By.XPATH, selector)] *)
  title_text : pystr -> pyresult pystr;
  (** [driver.find_elements(By.XPATH, selector)]: for each element found,
      what reading its [.text] produces *)
  hashtag_texts : pystr -> pyresult (list (pyresult pystr))
}.

(** The dictionary stored in [self.video_info]. *)
Record video_info : Type := {
  title : pystr;
  hashtags : list pystr
}.

Definition title_selectors : list pystr :=
  [ py "//h1[@data-e2e='video-title']";
    py "//h1[contains(@class, 'video-meta-title')]";
    py "//span[@data-e2e='new-desc-span']" ].

Definition hashtag_selectors : list pystr :=
  [ py "//a[@data-e2e='browse-video-hashtag']";
    py "//a[contains(@href, '/tag/')]" ].

(** The title loop; [video_title] is the variable the loop assigns. *)
Fixpoint title_loop (p : page) (selectors : list pystr) (video_title : pystr)
    : pyresult pystr :=
  match selectors with
  | [] => Ok video_title
  | selector :: rest =>
      match title_text p selector with
      | Ok text =>
          let video_title := strip text in
          if truthy video_title then Ok video_title else title_loop p rest video_title
      | Raise NoSuchElementException => title_loop p rest video_title
      | Raise e => Raise e
      end
  end.

(** The hashtag loop: the elements of the first selector that finds any. *)
Fixpoint hashtag_loop (p : page) (selectors : list pystr)
    : pyresult (list (pyresult pystr)) :=
  match selectors with
  | [] => Ok []
  | selector :: rest =>
      match hashtag_texts p selector with
      | Ok [] => hashtag_loop p rest
      | Ok elements => Ok elements
      | Raise NoSuchElementException => hashtag_loop p rest
      | Raise e => Raise e
      end
  end.

(** [[elem.text.strip() for elem in hashtag_elements]]. *)
Definition hashtag_list (p : page) : pyresult (list pystr) :=
  rbind (hashtag_loop p hashtag_selectors) (fun hashtag_elements =>
  comprehension (fun text => rbind text (fun t => Ok (strip t))) hashtag_elements).

Definition _extract_video_info (p : page) : video_info :=
  match
    rbind (title_loop p title_selectors (py "Unknown Title")) (fun video_title =>
    rbind (hashtag_list p) (fun hashtags =>
    Ok {| title := video_title; hashtags := hashtags |}))
  with
  | Ok info => info
  | Raise _ => {| title := py "Unknown"; hashtags := [] |}
  end.

(** A title lookup that does not stop the loop: the node is missing, or its
    text is blank. *)
Definition passed_over (r : pyresult pystr) : Prop :=
  r = Raise NoSuchElementException \/ exists text, r = Ok text /\ strip text = [].

End VideoInfo.

(** ** Sequencing of command trees that return any value *)

Module Seq.
Section AndThen.
Context {cmd : Type} {answer : cmd -> Type}.

(** Run [m], then go on with what it returned. *)
Fixpoint and_then {A B} (m : Eff.prog answer A) (f : A -> Eff.prog answer B)
  : Eff.prog answer B :=
  match m with
  | Eff.Ret a => f a
  | Eff.Call c k => Eff.Call c (fun a => and_then (k a) f)
  end.

End AndThen.
End Seq.

(** ** app.py: the publication task

    [process_comment_publishing] runs in the background: it creates the
    scraper unless the module already holds one, replies to each comment
    read from the store, records each outcome, and closes the scraper. The
    name [TikTokScraper] is looked up when the task runs; what creating the
    scraper gives, an instance or an exception, is an answer of the world
    (in [app.py] as it stands the import of the class is commented out, so
    the lookup itself raises). Printing is not modelled. *)

Module Tasks.
Import Eff Seq.

Inductive cmd : Type :=
  | TikTokScraper_new
  | on_scraper (c : Scraper.cmd)
  | scraper_close.

Definition answer (c : cmd) : Type :=
  match c with
  | TikTokScraper_new => pyresult unit
  | on_scraper c => Scraper.answer c
  | scraper_close => pyresult unit
  end.

(** A method of the scraper, run as part of a task. *)
Fixpoint on_driver {R} (p : prog Scraper.answer R) : prog answer R :=
  match p with
  | Ret r => Ret r
  | Call c k => Call (on_scraper c) (fun a => on_driver (k a))
  end.

(** The module globals the task reads and writes: the store, and whether
    [scraper] holds an instance. *)
Record globals : Type := {
  db : Database.Database;
  scraper : bool
}.

(** The loop over the comments read before it starts; [db] is the store as
    the turns so far left it. *)
Fixpoint publish_each (CURRENT_TIMESTAMP : Z) (comments : list Database.comment_row)
    (db : Database.Database) : prog answer Database.Database :=
  match comments with
  | [] => Ret db
  | comment :: rest =>
      and_then
        (on_driver (Scraper.reply_to_comment (Database.video_url comment)
                      (Database.username comment) (Database.ai_response comment)))
        (fun outcome =>
           match outcome with
           | Ok _ =>
               publish_each CURRENT_TIMESTAMP rest
                 (Database.update_comment_status CURRENT_TIMESTAMP db
                    (Database.id comment) (py "published"))
           | Raise _ =>
               publish_each CURRENT_TIMESTAMP rest
                 (Database.update_comment_status CURRENT_TIMESTAMP db
                    (Database.id comment) (py "failed"))
           end)
  end.

(** The task: what it raises, if anything, and the globals it leaves. *)
Definition process_comment_publishing (CURRENT_TIMESTAMP : Z) (comment_ids : list Z)
    (account_id : Z) (g : globals) : prog answer (pyresult unit * globals) :=
  and_then (if scraper g then Ret (Ok tt) else Call TikTokScraper_new Ret)
    (fun created =>
       match created with
       | Raise _ => Ret (Ok tt, g)
       | Ok _ =>
           let comments := Database.get_comments_by_ids (db g) comment_ids in
           and_then (publish_each CURRENT_TIMESTAMP comments (db g)) (fun db' =>
           Call scraper_close (fun closed =>
             match closed with
             | Ok _ => Ret (Ok tt, {| db := db'; scraper := false |})
             | Raise e => Ret (Raise e, {| db := db'; scraper := true |})
             end))
       end).

(** Two rows that differ at most in status and update time. *)
Definition same_comment (r r' : Database.comment_row) : Prop :=
  Database.id r' = Database.id r
  /\ Database.video_url r' = Database.video_url r
  /\ Database.account_id r' = Database.account_id r
  /\ Database.username r' = Database.username r
  /\ Database.comment_text r' = Database.comment_text r
  /\ Database.ai_response r' = Database.ai_response r
  /\ Database.created_at r' = Database.created_at r.

(** The two statuses a publication attempt ends in. *)
Definition attempted (status : pystr) : Prop :=
  status = py "published" \/ status = py "failed".

(** What the loop over the comments with the ids [ids] leaves of a row [r]
    of the store it started from: the row [r'] is the same comment, it has
    been attempted if its id is among [ids], and it is untouched otherwise. *)
Definition loop_outcome (ids : list Z) (r r' : Database.comment_row) : Prop :=
  same_comment r r'
  /\ (Database.id r ∈ ids -> attempted (Database.status r'))
  /\ (Database.id r ∉ ids -> r' = r).

End Tasks.

(** ** database.py and app.py: saving comments, the ingestion task *)

Module Ingestion.
Import Eff Seq.

(** The [comments] table with the counter SQLite keeps for its
    [AUTOINCREMENT] key: the largest id the table has ever held. *)
Record sequenced : Type := {
  table : Database.Database;
  sqlite_sequence : Z
}.

(** The dictionary handed to [save_comment]; [status] is [None] when the
    key is absent. The [created_at] key that [app.py] passes is not read. *)
Record comment_data : Type := {
  video_url : pystr;
  account_id : Z;
  username : pystr;
  comment_text : pystr;
  ai_response : json;
  status : option pystr
}.

Definition largest_id (db : Database.Database) : Z :=
  fold_right Z.max 0 (map Database.id (Database.comments db)).

Section Binding.

(** How [sqlite3] binds a Python value to the [ai_response TEXT NOT NULL]
    column: the text stored, or the exception the [INSERT] raises. *)
Variable bind_text : json -> pyresult pystr.

(** [json.loads], as in [AIHandler]. *)
Variable json_loads : pystr -> pyresult json.

(** [INSERT INTO comments (...) VALUES (...)], commit, [lastrowid]. *)
Definition save_comment (CURRENT_TIMESTAMP : Z) (s : sequenced) (d : comment_data)
    : pyresult (Z * sequenced) :=
  rbind (bind_text (ai_response d)) (fun text =>
    let comment_id := Z.max (sqlite_sequence s) (largest_id (table s)) + 1 in
    Ok (comment_id,
        {| table :=
             {| Database.comments :=
                  Database.comments (table s)
                  ++ [ {| Database.id := comment_id;
                          Database.video_url := video_url d;
                          Database.account_id := account_id d;
                          Database.username := username d;
                          Database.comment_text := comment_text d;
                          Database.ai_response := text;
                          Database.status := default (py "pending") (status d);
                          Database.created_at := CURRENT_TIMESTAMP;
                          Database.updated_at := CURRENT_TIMESTAMP |} ] |};
           sqlite_sequence := comment_id |})).

Inductive cmd : Type :=
  | TikTokScraper_new
  | scrape_video (video_url : pystr)
  | get_video_info
  | on_openai (c : AIHandler.cmd)
  | scraper_close.

(** [scrape_video] answers with the comments it returns, of which the task
    reads [username] and [comment_text]; [get_video_info] with the title and
    hashtags the scraper stored. *)
Definition answer (c : cmd) : Type :=
  match c with
  | TikTokScraper_new => pyresult unit
  | scrape_video _ => pyresult (list AIHandler.comment)
  | get_video_info => VideoInfo.video_info
  | on_openai c => AIHandler.answer c
  | scraper_close => pyresult unit
  end.

(** A method of the generator, run as part of the task. *)
Fixpoint on_generator {R} (p : prog AIHandler.answer R) : prog answer R :=
  match p with
  | Ret r => Ret r
  | Call c k => Call (on_openai c) (fun a => on_generator (k a))
  end.

Record globals : Type := {
  store : sequenced;
  scraper : bool
}.

(** The loop over [zip(comments_data, ai_responses)]: each pair is saved and
    committed on its own; the first [INSERT] that raises ends the loop. *)
Fixpoint save_each (CURRENT_TIMESTAMP : Z) (video_url : pystr) (account_id : Z)
    (pairs : list (AIHandler.comment * json)) (s : sequenced)
    : pyresult unit * sequenced :=
  match pairs with
  | [] => (Ok tt, s)
  | (comment, reply) :: rest =>
      match save_comment CURRENT_TIMESTAMP s
              {| video_url := video_url;
                 account_id := account_id;
                 username := AIHandler.username comment;
                 comment_text := AIHandler.comment_text comment;
                 ai_response := reply;
                 status := Some (py "pending") |} with
      | Ok (_, s') => save_each CURRENT_TIMESTAMP video_url account_id rest s'
      | Raise e => (Raise e, s)
      end
  end.

(** The body of the [try] once the scraper is there: the store it leaves. *)
Definition scrape_and_save (self : AIHandler.AIResponseGenerator)
    (CURRENT_TIMESTAMP : Z) (video_url : pystr) (account_id : Z) (s : sequenced)
    : prog answer sequenced :=
  Call (scrape_video video_url) (fun scraped =>
    match scraped with
    | Raise _ => Ret s
    | Ok [] => Ret s
    | Ok comments_data =>
        Call get_video_info (fun video_info =>
        and_then
          (on_generator
             (AIHandler.generate_batch_responses json_loads self comments_data
                (VideoInfo.title video_info) (VideoInfo.hashtags video_info)))
          (fun generated =>
             match generated with
             | Ok ai_responses =>
                 Ret (save_each CURRENT_TIMESTAMP video_url account_id
                        (combine comments_data ai_responses) s).2
             | Raise _ => Ret s
             end))
    end).

(** The task: what it raises, if anything, and the globals it leaves. *)
Definition process_video_scraping (self : AIHandler.AIResponseGenerator)
    (CURRENT_TIMESTAMP : Z) (video_url : pystr) (account_id : Z) (g : globals)
    : prog answer (pyresult unit * globals) :=
  and_then (if scraper g then Ret (Ok tt) else Call TikTokScraper_new Ret)
    (fun created =>
       match created with
       | Raise _ => Ret (Ok tt, g)
       | Ok _ =>
           and_then (scrape_and_save self CURRENT_TIMESTAMP video_url account_id (store g))
             (fun store' =>
           Call scraper_close (fun closed =>
             match closed with
             | Ok _ => Ret (Ok tt, {| store := store'; scraper := false |})
             | Raise e => Ret (Raise e, {| store := store'; scraper := true |})
             end))
       end).

End Binding.


End Ingestion.

(** ** Further sample data *)

Module MoreSamples.

(** A completion text whose second entry is a number, not an object. *)
Definition mixed_entries_json : pystr :=
  py "{" ++ q "responses" ++ py ": [{" ++ q "chatgpt_response" ++ py ": " ++ q "Coucou" ++ py "}, 7]}".

(** [json.loads] on four sample texts: the empty object, the empty array,
    [mixed_entries_json], and text that is not JSON. No other text is
    decoded in the samples. *)
Definition json_loads (text : pystr) : pyresult json :=
  if bool_decide (text = py "{}") then Ok (JObj [])
  else if bool_decide (text = py "[]") then Ok (JArr [])
  else if bool_decide (text = mixed_entries_json) then
    Ok (JObj [(py "responses",
               JArr [JObj [(py "chatgpt_response", JStr (py "Coucou"))]; JInt 7])])
  else Raise JSONDecodeError.

(** A page like [Samples.page] with two enabled publish buttons, on which
    the placeholder-anchored reply input never shows up (only the generic
    text box does) and the clipboard is not available. *)
Definition degraded_page : Eff.world Scraper.answer unit :=
  fun c w =>
    match c return Scraper.answer c * unit with
    | Scraper.wait_visible _ xpath =>
        (if bool_decide (xpath = py "//div[@contenteditable='true' and @role='textbox']")
         then Ok 13%N else Raise TimeoutException, w)
    | Scraper.pyperclip_copy _ => (Raise PyperclipException, w)
    | other => Samples.page [20%N; 21%N] other w
    end.

(** A video page whose first title node is missing and whose second is
    blank; the description span carries the title. The first hashtag
    selector finds nothing, the second finds two links. *)
Definition video_page : VideoInfo.page :=
  {| VideoInfo.title_text := fun selector =>
       if bool_decide (selector = py "//h1[@data-e2e='video-title']")
       then Raise NoSuchElementException
       else if bool_decide (selector = py "//h1[contains(@class, 'video-meta-title')]")
       then Ok (py "  ")
       else Ok (py " Mes bons plans du mois ");
     VideoInfo.hashtag_texts := fun selector =>
       if bool_decide (selector = py "//a[@data-e2e='browse-video-hashtag']")
       then Ok []
       else Ok [Ok (py "#bonplan "); Ok (py "#muslim")] |}.

(** The same page, on which reading the second hashtag link fails. *)
Definition stale_video_page : VideoInfo.page :=
  {| VideoInfo.title_text := VideoInfo.title_text video_page;
     VideoInfo.hashtag_texts := fun selector =>
       if bool_decide (selector = py "//a[@data-e2e='browse-video-hashtag']")
       then Ok []
       else Ok [Ok (py "#bonplan "); Raise WebDriverException] |}.

(** A world for the publication task: the scraper starts and closes, and
    the browser behaves like [Samples.page] with a single enabled publish
    button, so that every reply attempt fails at the last step. *)
Definition one_button_browser : Eff.world Tasks.answer unit :=
  fun c w =>
    match c return Tasks.answer c * unit with
    | Tasks.TikTokScraper_new => (Ok tt, w)
    | Tasks.on_scraper c => Samples.page [20%N] c w
    | Tasks.scraper_close => (Ok tt, w)
    end.

(** A world in which the scraper cannot be created. *)
Definition no_scraper : Eff.world Tasks.answer unit :=
  fun c w =>
    match c return Tasks.answer c * unit with
    | Tasks.TikTokScraper_new => (Raise (Exception_ (py "name 'TikTokScraper' is not defined")), w)
    | Tasks.on_scraper c => Samples.page [20%N; 21%N] c w
    | Tasks.scraper_close => (Ok tt, w)
    end.

(** How [sqlite3] stores a string and an integer in a [TEXT] column; the
    other values are not bound in the samples. *)
Definition bind_text (v : json) : pyresult pystr :=
  match v with
  | JStr s => Ok s
  | JInt n => Ok (str_of_int n)
  | _ => Raise (Exception_ (py "Error binding parameter"))
  end.

(** The sample store with the counter of a table that once held id 7. *)
Definition sequenced_store : Ingestion.sequenced :=
  {| Ingestion.table := App.db Samples.store; Ingestion.sqlite_sequence := 7 |}.

(** A world for the ingestion task: the scraper starts, returns the given
    comments and the sample title and hashtags, and the completion service
    answers with the sample text that holds three replies. *)
Definition ingestion_world (scraped : pyresult (list AIHandler.comment))
    : Eff.world Ingestion.answer unit :=
  fun c w =>
    match c return Ingestion.answer c * unit with
    | Ingestion.TikTokScraper_new => (Ok tt, w)
    | Ingestion.scrape_video _ => (scraped, w)
    | Ingestion.get_video_info =>
        ({| VideoInfo.title := Samples.video_title;
            VideoInfo.hashtags := Samples.hashtags |}, w)
    | Ingestion.on_openai c =>
        Samples.answering (Ok [Some Samples.three_replies_text]) c w
    | Ingestion.scraper_close => (Ok tt, w)
    end.

(** A world for the ingestion task in which the scraper cannot be
    created. *)
Definition ingestion_no_scraper : Eff.world Ingestion.answer unit :=
  fun c w =>
    match c return Ingestion.answer c * unit with
    | Ingestion.TikTokScraper_new =>
        (Raise (Exception_ (py "name 'TikTokScraper' is not defined")), w)
    | c => ingestion_world (Ok Samples.comments) c w
    end.

End MoreSamples.

(** * Properties *)

(** Two different string literals are different. *)
Ltac literal_neq := let E := fresh in intros E; vm_compute in E; discriminate E.

(** ** Command trees *)

Section ExecFacts.
Context {cmd : Type} {answer : cmd -> Type} {W : Type}.
Variable h : Eff.world answer W.

Lemma exec_bind {A B} (m : Eff.prog answer (pyresult A))
    (f : A -> Eff.prog answer (pyresult B)) (w : W) :
  Eff.exec h (Eff.bind m f) w =
  match Eff.exec h m w with
  | (Ok a, w1, l1) =>
      match Eff.exec h (f a) w1 with
      | (r, w2, l2) => (r, w2, l1 ++ l2)
      end
  | (Raise e, w1, l1) => (Raise e, w1, l1)
  end.
Proof.
  revert w. induction m as [[a | e] | c k IH]; intros w; simpl.
  - destruct (Eff.exec h (f a) w) as [[r w2] l2]. reflexivity.
  - reflexivity.
  - destruct (h c w) as [x w1]. rewrite IH.
    destruct (Eff.exec h (k x) w1) as [[[a | e] w2] l1]; [| reflexivity].
    destruct (Eff.exec h (f a) w2) as [[r w3] l2]. reflexivity.
Qed.

Lemma exec_try_except {A} (m : Eff.prog answer (pyresult A))
    (handler : exn -> Eff.prog answer (pyresult A)) (w : W) :
  Eff.exec h (Eff.try_except m handler) w =
  match Eff.exec h m w with
  | (Ok a, w1, l1) => (Ok a, w1, l1)
  | (Raise e, w1, l1) =>
      match Eff.exec h (handler e) w1 with
      | (r, w2, l2) => (r, w2, l1 ++ l2)
      end
  end.
Proof.
  revert w. induction m as [[a | e] | c k IH]; intros w; simpl.
  - reflexivity.
  - destruct (Eff.exec h (handler e) w) as [[r w2] l2]. reflexivity.
  - destruct (h c w) as [x w1]. rewrite IH.
    destruct (Eff.exec h (k x) w1) as [[[a | e] w2] l1]; [reflexivity |].
    destruct (Eff.exec h (handler e) w2) as [[r w3] l2]. reflexivity.
Qed.

End ExecFacts.

(** ** The prelude on concrete inputs *)

Section PreludeExamples.

Example py_decodes_utf8 : py "é🎀a" = [233%N; 127872%N; 97%N].
Proof. reflexivity. Qed.

Example excluded_username_code_points :
  Scraper.excluded_username
  = [115; 111; 101; 117; 114; 32; 98; 111; 110; 112; 108; 97; 110; 32; 127872]%N.
Proof. reflexivity. Qed.

Example strip_both_ends : strip (py "  a b
 ") = py "a b".
Proof. reflexivity. Qed.

Example lower_latin1 : lower (py "Soeur BONPLAN 🎀 É×") = py "soeur bonplan 🎀 é×".
Proof. reflexivity. Qed.

Example split_handle :
  split (py "https://www.tiktok.com/@lina?lang=fr") (py "/@")
  = [py "https://www.tiktok.com"; py "lina?lang=fr"].
Proof. reflexivity. Qed.

Example split_no_overlap : split (py "aXXXb") (py "XX") = [py "a"; py "Xb"].
Proof. reflexivity. Qed.

Example contains_fence : contains (py "```") (py "x ```json {} ```") = true.
Proof. reflexivity. Qed.

Example slice_to_negative : slice_to (py "abcdef") (-2) = py "abcd".
Proof. reflexivity. Qed.

Example str_of_int_negative : str_of_int (-30) = py "-30".
Proof. reflexivity. Qed.

Example clean_fenced :
  AIHandler.clean Samples.three_replies_text = Ok Samples.three_replies_json.
Proof. vm_compute. reflexivity. Qed.

Example clean_plain : AIHandler.clean (py "  {}
") = Ok (py "{}").
Proof. reflexivity. Qed.

End PreludeExamples.

(** ** Batch generation *)

Section BatchFacts.
Import AIHandler.
Context {W : Type}.
Variable json_loads : pystr -> pyresult json.
Variable h : Eff.world AIHandler.answer W.
Variable self : AIResponseGenerator.

(** A run on a non-empty batch: exactly one call, and the outcome of the
    [try] body decides between the parsed replies and the default ones. *)
Lemma generate_batch_run c cs video_title hashtags w :
  let request :=
    chat_completions_create
      (batch_request self (_build_batch_prompt (c :: cs) video_title hashtags)) in
  Eff.exec h (generate_batch_responses json_loads self (c :: cs) video_title hashtags) w =
  (Ok match attempt json_loads (h request w).1 with
      | Ok parsed_responses => parsed_responses
      | Raise _ => map (fun _ => default_reply) (c :: cs)
      end,
   (h request w).2, [request]).
Proof.
  intros request. unfold generate_batch_responses, attempt. cbn [Eff.try_except Eff.bind Eff.exec].
  fold request. destruct (h request w) as [[response | e] w1]; cbn; [| reflexivity].
  destruct (first_content response) as [text | e]; cbn; [| reflexivity].
  destruct (_parse_json_response json_loads text) as [parsed | e]; reflexivity.
Qed.

(** The batch generator never raises. *)
Lemma generate_batch_never_raises comments_data video_title hashtags w :
  ~ raises (Eff.result h
              (generate_batch_responses json_loads self comments_data video_title hashtags) w).
Proof.
  intros [e He]. unfold Eff.result in He. destruct comments_data as [| c cs].
  - discriminate He.
  - rewrite generate_batch_run in He. discriminate He.
Qed.

(** A decode failure leaves [_parse_json_response] as the same exception. *)
Lemma parse_decode_failure text cleaned :
  clean text = Ok cleaned ->
  json_loads cleaned = Raise JSONDecodeError ->
  _parse_json_response json_loads text = Raise JSONDecodeError.
Proof.
  intros Hc Hl. unfold _parse_json_response. rewrite Hc. cbn [rbind]. rewrite Hl. reflexivity.
Qed.

Lemma comprehension_replies items replies :
  Forall2 reply_of_entry items replies ->
  comprehension
    (fun item => get item (py "chatgpt_response") (JStr (py "Hello! Merci ")))
    items = Ok replies.
Proof.
  induction 1 as [| item reply items replies (fields & -> & ->) _ IH]; [reflexivity |].
  cbn [comprehension get rbind]. rewrite IH. reflexivity.
Qed.

(** On a decoded object whose [responses] is a list of objects, the parser
    returns the reply of each entry, in order. *)
Lemma parse_well_formed text cleaned members items replies :
  clean text = Ok cleaned ->
  json_loads cleaned = Ok (JObj members) ->
  assoc (py "responses") members = Some (JArr items) ->
  Forall2 reply_of_entry items replies ->
  _parse_json_response json_loads text = Ok replies.
Proof.
  intros Hc Hl Hr Hitems. unfold _parse_json_response.
  rewrite Hc. cbn [rbind]. rewrite Hl. cbn [rbind get]. rewrite Hr.
  cbn [default from_option id rbind iter].
  rewrite (comprehension_replies _ _ Hitems). reflexivity.
Qed.

(** C9: on the empty batch the generator returns the empty list at once: the
    program is a bare return, so a run makes no call to the completion
    service, leaves the world as it was and raises nothing. *)
Theorem generate_batch_empty video_title hashtags w :
  generate_batch_responses json_loads self [] video_title hashtags = Eff.Ret (Ok [])
  /\ Eff.exec h (generate_batch_responses json_loads self [] video_title hashtags) w
     = (Ok [], w, []).
Proof. split; reflexivity. Qed.

(** C3: on a non-empty batch of N comments, when anything inside the [try]
    raises (the completion request itself, reading the first choice, or
    handling the returned text), the generator returns N entries, each the
    fixed default reply, after its single call. *)
Theorem generate_batch_degrades c cs video_title hashtags w e :
  let request :=
    chat_completions_create
      (batch_request self (_build_batch_prompt (c :: cs) video_title hashtags)) in
  attempt json_loads (h request w).1 = Raise e ->
  exists replies,
    Eff.result h (generate_batch_responses json_loads self (c :: cs) video_title hashtags) w
      = Ok replies
    /\ length replies = length (c :: cs)
    /\ Forall (fun r => r = JStr (py "Merci pour ton commentaire")) replies
    /\ Eff.calls h (generate_batch_responses json_loads self (c :: cs) video_title hashtags) w
       = [request].
Proof.
  intros request He. unfold Eff.result, Eff.calls.
  rewrite generate_batch_run. fold request. rewrite He. cbn [fst snd].
  eexists. split; [reflexivity |]. split; [apply length_map |]. split; [| reflexivity].
  apply List.Forall_forall. intros r Hr. apply in_map_iff in Hr as (x & <- & _).
  reflexivity.
Qed.

(** C1, as the code has it: when the completion succeeds and the returned
    text fails JSON decoding, [_parse_json_response] raises the decode
    error, and [generate_batch_responses] catches it: it does not raise, it
    returns the default reply once per input comment. *)
Theorem generate_batch_decode_failure c cs video_title hashtags w response text cleaned :
  let request :=
    chat_completions_create
      (batch_request self (_build_batch_prompt (c :: cs) video_title hashtags)) in
  (h request w).1 = Ok response ->
  first_content response = Ok text ->
  clean text = Ok cleaned ->
  json_loads cleaned = Raise JSONDecodeError ->
  _parse_json_response json_loads text = Raise JSONDecodeError
  /\ Eff.result h (generate_batch_responses json_loads self (c :: cs) video_title hashtags) w
     = Ok (map (fun _ => default_reply) (c :: cs)).
Proof.
  intros request Hcall Hfirst Hclean Hloads.
  pose proof (parse_decode_failure _ _ Hclean Hloads) as Hparse.
  split; [exact Hparse |].
  unfold Eff.result. rewrite generate_batch_run. fold request.
  unfold attempt. rewrite Hcall. cbn [rbind]. rewrite Hfirst. cbn [rbind].
  rewrite Hparse. reflexivity.
Qed.

(** C6: on a non-empty batch of N comments, when the completion succeeds
    and its text decodes to an object whose [responses] array has M entries,
    each of them an object, the generator returns exactly the M replies of
    those entries, in array order, whatever N is: nothing is added when
    M < N and nothing is cut when M > N. *)
Theorem generate_batch_cardinality c cs video_title hashtags w response text cleaned
    members items replies :
  let request :=
    chat_completions_create
      (batch_request self (_build_batch_prompt (c :: cs) video_title hashtags)) in
  (h request w).1 = Ok response ->
  first_content response = Ok text ->
  clean text = Ok cleaned ->
  json_loads cleaned = Ok (JObj members) ->
  assoc (py "responses") members = Some (JArr items) ->
  Forall2 reply_of_entry items replies ->
  Eff.result h (generate_batch_responses json_loads self (c :: cs) video_title hashtags) w
    = Ok replies
  /\ length replies = length items.
Proof.
  intros request Hcall Hfirst Hclean Hloads Hresp Hitems.
  split; [| symmetry; eapply Forall2_length; eassumption].
  unfold Eff.result. rewrite generate_batch_run. fold request.
  unfold attempt. rewrite Hcall. cbn [rbind]. rewrite Hfirst. cbn [rbind].
  rewrite (parse_well_formed _ _ _ _ _ Hclean Hloads Hresp Hitems). reflexivity.
Qed.

End BatchFacts.

(** ** Truncation *)

Section TruncateFacts.
Import AIHandler.

Lemma truncate_short response :
  len response <= 114 -> truncate_response response 114 = response.
Proof.
  intros H. unfold truncate_response.
  destruct (Z.leb_spec (len response) 114); [reflexivity | lia].
Qed.

Lemma truncate_long response :
  len response > 114 -> truncate_response response 114 = take 111 response ++ py "...".
Proof.
  intros H. unfold truncate_response.
  destruct (Z.leb_spec (len response) 114); [lia | reflexivity].
Qed.

Lemma truncate_long_len response :
  len response > 114 -> len (truncate_response response 114) = 114.
Proof.
  intros H. rewrite truncate_long by exact H. unfold len in *.
  rewrite length_app, length_take. change (length (py "...")) with 3%nat. lia.
Qed.

(** C4: with the default ceiling of 114, truncation applied twice equals
    truncation applied once; an input of at most 114 characters comes back
    unchanged; a longer input comes back as its first 111 characters
    followed by the marker "...", 114 characters in all. *)
Theorem truncate_response_spec (response : pystr) :
  truncate_response (truncate_response response 114) 114 = truncate_response response 114
  /\ (len response <= 114 -> truncate_response response 114 = response)
  /\ (len response > 114 ->
      len (truncate_response response 114) = 114
      /\ truncate_response response 114 = take 111 response ++ py "..."
      /\ py "..." `suffix_of` truncate_response response 114).
Proof.
  split; [| split].
  - destruct (Z.le_gt_cases (len response) 114) as [Hle | Hgt].
    + rewrite (truncate_short response Hle). apply truncate_short, Hle.
    + apply truncate_short. rewrite truncate_long_len; lia.
  - apply truncate_short.
  - intros H. split; [apply truncate_long_len, H |].
    split; [apply truncate_long, H |].
    rewrite truncate_long by exact H. eexists. reflexivity.
Qed.

End TruncateFacts.

(** ** Stripping and lowering *)

Section StringFacts.

Lemma isspace_spec c :
  isspace c = true <->
  ((9 <= c /\ c <= 13) \/ (28 <= c /\ c <= 32) \/ c = 133 \/ c = 160 \/ c = 5760
   \/ (8192 <= c /\ c <= 8202) \/ c = 8232 \/ c = 8233 \/ c = 8239 \/ c = 8287
   \/ c = 12288)%N.
Proof.
  unfold isspace.
  rewrite !orb_true_iff, !andb_true_iff, !N.leb_le, !N.eqb_eq. tauto.
Qed.

Lemma isspace_lower_cp c : isspace (lower_cp c) = isspace c.
Proof.
  apply eq_true_iff_eq. rewrite !isspace_spec. unfold lower_cp.
  destruct (N.leb_spec 65 c), (N.leb_spec c 90), (N.leb_spec 192 c),
    (N.leb_spec c 222), (N.eqb_spec c 215); cbn [andb negb]; lia.
Qed.

Lemma length_lower s : length (lower s) = length s.
Proof. apply length_map. Qed.

Lemma lstrip_lower s : lstrip (lower s) = lower (lstrip s).
Proof.
  induction s as [| c s IH]; [reflexivity |].
  cbn [lower map lstrip]. rewrite isspace_lower_cp.
  destruct (isspace c); [exact IH | reflexivity].
Qed.

Lemma strip_lower s : strip (lower s) = lower (strip s).
Proof.
  unfold strip, rstrip, lower. rewrite lstrip_lower. unfold lower.
  rewrite <- map_rev, lstrip_lower. unfold lower. rewrite map_rev. reflexivity.
Qed.

Lemma lstrip_head s :
  lstrip s = [] \/ exists c r, lstrip s = c :: r /\ isspace c = false.
Proof.
  induction s as [| c s IH]; [left; reflexivity |].
  cbn [lstrip]. destruct (isspace c) eqn:E; [exact IH |]. right. eauto.
Qed.

Lemma lstrip_idem s : lstrip (lstrip s) = lstrip s.
Proof.
  destruct (lstrip_head s) as [-> | (c & r & -> & E)]; [reflexivity |].
  cbn [lstrip]. rewrite E. reflexivity.
Qed.

Lemma lstrip_snoc l c : isspace c = false -> lstrip (l ++ [c]) = lstrip l ++ [c].
Proof.
  intros E. induction l as [| a l IH]; cbn [lstrip app].
  - rewrite E. reflexivity.
  - destruct (isspace a); [exact IH | reflexivity].
Qed.

Lemma rstrip_cons c s : isspace c = false -> rstrip (c :: s) = c :: rstrip s.
Proof.
  intros E. unfold rstrip. cbn [rev]. rewrite lstrip_snoc by exact E.
  rewrite rev_app_distr. reflexivity.
Qed.

Lemma rstrip_idem s : rstrip (rstrip s) = rstrip s.
Proof. unfold rstrip. rewrite rev_involutive, lstrip_idem. reflexivity. Qed.

Lemma strip_idem s : strip (strip s) = strip s.
Proof.
  unfold strip. destruct (lstrip_head s) as [-> | (c & r & -> & E)]; [reflexivity |].
  rewrite (rstrip_cons c r E). cbn [lstrip]. rewrite E.
  rewrite <- (rstrip_cons c r E). apply rstrip_idem.
Qed.

Lemma strip_cons c s : isspace c = false -> strip (c :: s) = c :: rstrip s.
Proof. intros E. unfold strip. cbn [lstrip]. rewrite E. apply rstrip_cons, E. Qed.

End StringFacts.

(** ** Extraction and self-filtering *)

Section ExtractFacts.
Import Scraper.

Lemma same_up_to_case_lower a b : same_up_to_case a b -> lower a = lower b.
Proof.
  induction 1 as [| x y a b Hxy _ IH]; [reflexivity |].
  cbn [lower map]. rewrite Hxy. f_equal. exact IH.
Qed.

Lemma except_no_such_element_ok {A} (r fallback : pyresult A) x :
  except_no_such_element r fallback = Ok x ->
  r = Ok x \/ (r = Raise NoSuchElementException /\ fallback = Ok x).
Proof.
  destruct r as [a | e]; cbn.
  - intros [= <-]. left. reflexivity.
  - destruct e; try discriminate. intros ->. right. split; reflexivity.
Qed.

Lemma rbind_ok {A B} (r : pyresult A) (f : A -> pyresult B) y :
  rbind r f = Ok y -> exists x, r = Ok x /\ f x = Ok y.
Proof. destruct r as [x | e]; [eauto | discriminate]. Qed.

(** The identity the loop resolves is already stripped, or is a handle that
    starts with the at sign. *)
Lemma username_from_link_shape comment_block username :
  username_from_link comment_block = Ok username ->
  strip username = username \/ exists handle, username = 64%N :: handle.
Proof.
  unfold username_from_link. intros H.
  apply except_no_such_element_ok in H as [H | [_ [= <-]]]; [| left; reflexivity].
  apply rbind_ok in H as (l & _ & H). apply rbind_ok in H as (hr & _ & H).
  destruct (match hr with Some h => truthy h && contains (py "/@") h | None => false end).
  - apply rbind_ok in H as (tail & _ & H). apply rbind_ok in H as (handle & _ & [= <-]).
    right. eexists. reflexivity.
  - apply rbind_ok in H as (t & _ & [= <-]). left. apply strip_idem.
Qed.

Lemma resolve_username_shape comment_block username :
  resolve_username comment_block = Ok username ->
  strip username = username \/ exists handle, username = 64%N :: handle.
Proof.
  unfold resolve_username. intros H. apply rbind_ok in H as (u0 & Hlink & H).
  apply username_from_link_shape in Hlink.
  unfold username_with_display_name in H.
  apply except_no_such_element_ok in H as [H | [_ [= <-]]]; [| exact Hlink].
  apply rbind_ok in H as (t & _ & [= <-]).
  destruct (truthy (strip t)); [| exact Hlink]. left. apply strip_idem.
Qed.

(** On a resolved identity the self-filter test is case-insensitive
    equality with the operator identity. *)
Lemma is_excluded_exact comment_block username :
  resolve_username comment_block = Ok username ->
  is_excluded username = true <-> lower username = lower excluded_username.
Proof.
  intros H. unfold is_excluded. rewrite bool_decide_eq_true.
  destruct (resolve_username_shape _ _ H) as [Hs | (handle & ->)].
  - rewrite strip_lower, Hs. reflexivity.
  - cbn [lower map]. change (lower_cp 64) with 64%N.
    rewrite strip_cons by reflexivity.
    split; intros Heq; vm_compute in Heq; discriminate.
Qed.

Lemma proper_substring_lower_neq sub s :
  proper_substring sub s -> lower s <> lower sub.
Proof.
  intros (before & after & -> & Hne) Heq.
  apply (f_equal (@length N)) in Heq. rewrite !length_lower, !length_app in Heq.
  destruct before, after; cbn in *; try lia. congruence.
Qed.

(** The loop appends what each block yields, in page order. *)
Lemma extract_loop_omap comment_blocks comments_data :
  extract_loop comment_blocks comments_data = comments_data ++ omap extract_block comment_blocks.
Proof.
  revert comments_data. induction comment_blocks as [| b bs IH]; intros acc; cbn.
  - rewrite app_nil_r. reflexivity.
  - destruct (extract_block b); rewrite IH; [rewrite <- app_assoc |]; reflexivity.
Qed.

Lemma extract_block_resolved comment_block username text :
  resolve_username comment_block = Ok username ->
  comment_text_text comment_block = Ok text ->
  extract_block comment_block =
    if is_excluded username then None
    else Some {| Scraper.username := username;
                 comment_text := strip text;
                 comment_element := comment_block |}.
Proof.
  intros Hu Ht. unfold extract_block. rewrite Hu. cbn [rbind]. rewrite Ht.
  destruct (is_excluded username); reflexivity.
Qed.

(** C5: the extracted list is what the blocks yield in page order, and for a
    block whose identity and text both resolve, the block is dropped exactly
    when its identity equals the operator identity up to letter case; so an
    identity that differs from the operator identity only in letter case is
    dropped, and one that has the operator identity as a proper substring is
    kept, with its identity and text. *)
Theorem extract_self_filter comment_block username text :
  resolve_username comment_block = Ok username ->
  comment_text_text comment_block = Ok text ->
  (forall comment_blocks,
     _extract_comments (Ok comment_blocks) = omap extract_block comment_blocks)
  /\ (extract_block comment_block = None <-> lower username = lower excluded_username)
  /\ (same_up_to_case username excluded_username -> extract_block comment_block = None)
  /\ (proper_substring excluded_username username ->
      extract_block comment_block =
        Some {| Scraper.username := username;
                comment_text := strip text;
                comment_element := comment_block |}).
Proof.
  intros Hu Ht.
  pose proof (extract_block_resolved _ _ _ Hu Ht) as Hb.
  pose proof (is_excluded_exact _ _ Hu) as Hex.
  split; [| split; [| split]].
  - intros bs. cbn. apply extract_loop_omap.
  - rewrite Hb. destruct (is_excluded username).
    + split; [intros _; apply Hex; reflexivity | reflexivity].
    + split; [discriminate |]. intros Heq. apply Hex in Heq. discriminate.
  - intros Hcase. rewrite Hb.
    apply same_up_to_case_lower, Hex in Hcase. rewrite Hcase. reflexivity.
  - intros Hsub. rewrite Hb. destruct (is_excluded username) eqn:E; [| reflexivity].
    exfalso. apply (proper_substring_lower_neq _ _ Hsub), Hex. reflexivity.
Qed.

End ExtractFacts.

(** ** The store *)

Section StoreFacts.
Import Database.


Lemma get_comment_update_other db comment_id other set :
  other <> comment_id ->
  (forall r, id (set r) = id r) ->
  get_comment (update_where_id comment_id set db) other = get_comment db other.
Proof.
  intros Hne Hid. unfold get_comment, update_where_id. cbn [comments].
  induction (comments db) as [| r rs IH]; cbn [find map]; [reflexivity |].
  destruct (bool_decide_reflect (id r = comment_id)) as [E | NE].
  - rewrite Hid. rewrite !(bool_decide_eq_false_2 (id r = other)) by congruence.
    exact IH.
  - destruct (bool_decide (id r = other)); [reflexivity | exact IH].
Qed.

End StoreFacts.

(** ** Moderation and publication endpoints *)

Section EndpointFacts.
Import Database App.
Variable str_exn : exn -> pystr.
Variable now : Z.





(** C10: on an existing comment, a request whose action is "modify" with no
    modified text, or whose action is none of "validate", "reject" and
    "modify", is acknowledged as a success and changes nothing: the state
    after the request is the state before it. *)
Theorem moderation_noop (st : state) (v : ValidateComment) (row : comment_row) :
  get_comment (db st) (comment_id v) = Some row ->
  (action v = py "modify" /\ modified_response v = None)
  \/ (action v <> py "validate" /\ action v <> py "reject" /\ action v <> py "modify") ->
  validate_comment str_exn now v st = (Ok (ack v), st).
Proof.
  intros Hrow Hcase. unfold validate_comment. rewrite Hrow.
  destruct Hcase as [[Ha Hm] | (Hv & Hr & Hm)].
  - rewrite Hm.
    rewrite (bool_decide_eq_false_2 (action v = py "validate"))
      by (rewrite Ha; literal_neq).
    rewrite (bool_decide_eq_false_2 (action v = py "reject"))
      by (rewrite Ha; literal_neq).
    rewrite (bool_decide_eq_true_2 _ Ha). reflexivity.
  - rewrite !bool_decide_eq_false_2 by assumption. reflexivity.
Qed.

(** C2: when some comment named by a publish request is stored with a
    status other than "validated", the request is answered with an error and
    leaves the store and the background tasks as they were: no publication
    task is queued and no status changes. *)
Theorem publish_rejected (st : state) (req : PublishRequest) (row : comment_row) :
  row ∈ comments (db st) ->
  id row ∈ comment_ids req ->
  status row <> py "validated" ->
  exists n,
    (0 < n)%Z
    /\ publish_comments str_exn req st
       = (Raise (HTTPException 500
                   (py "Erreur: "
                    ++ str_exn (HTTPException 400
                                  (str_of_int n ++ py " commentaires non validés")))),
          st).
Proof.
  intros Hin Hid Hst. unfold publish_comments.
  set (invalid := filter _ (get_comments_by_ids _ _)).
  assert (Hrow : row ∈ invalid).
  { subst invalid. apply list_elem_of_filter. split; [exact Hst |].
    unfold get_comments_by_ids. apply list_elem_of_filter. split; assumption. }
  destruct invalid as [| r rs] eqn:E; [inversion Hrow |].
  exists (len (r :: rs)). split; [unfold len; cbn; lia | reflexivity].
Qed.

End EndpointFacts.

(** ** Reply submission *)

Section ReplyFacts.
Import Scraper.
Context {W : Type}.
Variable h : Eff.world Scraper.answer W.

(** A run of the whole method is a run of the preparation followed, when
    that did not raise, by a run of the last step. *)
Lemma reply_to_comment_run video_url username reply_text w :
  Eff.exec h (reply_to_comment video_url username reply_text) w =
  match Eff.exec h (prepare_reply video_url username reply_text) w with
  | (Ok _, w1, calls1) =>
      match Eff.exec h publish_reply w1 with
      | (r, w2, calls2) => (r, w2, calls1 ++ calls2)
      end
  | (Raise e, w1, calls1) => (Raise e, w1, calls1)
  end.
Proof.
  unfold reply_to_comment. rewrite exec_try_except, exec_bind.
  destruct (Eff.exec h (prepare_reply video_url username reply_text) w)
    as [[[[] | e] w1] calls1].
  - destruct (Eff.exec h publish_reply w1) as [[[[] | e] w2] calls2].
    + reflexivity.
    + cbn. rewrite app_nil_r. reflexivity.
  - cbn. rewrite app_nil_r. reflexivity.
Qed.

(** The last step when fewer than two enabled publish buttons are found. *)
Lemma publish_reply_too_few w1 w2 publish_buttons :
  h (find_elements publish_buttons_xpath) w1 = (Ok publish_buttons, w2) ->
  len publish_buttons < 2 ->
  Eff.exec h publish_reply w1
  = (Raise (Exception_ (py "Bouton publier non trouvé")), w2,
     [find_elements publish_buttons_xpath]).
Proof.
  intros Hfind Hlen. unfold publish_reply, call. cbn [Eff.bind Eff.exec].
  rewrite Hfind. cbn [eq_rect Eff.bind].
  destruct (Z.leb_spec 2 (len publish_buttons)); [lia | reflexivity].
Qed.

(** The last step when at least two are found and the scroll succeeds. *)
Lemma publish_reply_second w1 w2 w3 w4 w5 first second others u clicked :
  h (find_elements publish_buttons_xpath) w1 = (Ok (first :: second :: others), w2) ->
  h (execute_script scrollIntoView second) w2 = (Ok tt, w3) ->
  h (sleep 1) w3 = (u, w4) ->
  h (execute_script click second) w4 = (clicked, w5) ->
  Eff.exec h publish_reply w1
  = match clicked with
    | Ok _ =>
        (Ok tt, (h (sleep 3) w5).2,
         [find_elements publish_buttons_xpath; execute_script scrollIntoView second;
          sleep 1; execute_script click second; sleep 3])
    | Raise e =>
        (Raise e, w5,
         [find_elements publish_buttons_xpath; execute_script scrollIntoView second;
          sleep 1; execute_script click second])
    end.
Proof.
  intros Hfind Hscroll Hsleep Hclick. unfold publish_reply, call, do_sleep.
  cbn [Eff.bind Eff.exec]. rewrite Hfind. cbn [eq_rect Eff.bind].
  assert (Hlen : (2 <=? len (first :: second :: others)) = true).
  { apply Z.leb_le. unfold len. cbn [length]. lia. }
  rewrite Hlen. cbn [Eff.pure index nth_error Eff.bind Eff.exec].
  rewrite Hscroll. cbn [eq_rect Eff.bind Eff.exec]. rewrite Hsleep.
  cbn [Eff.bind Eff.exec]. rewrite Hclick.
  destruct clicked as [[] | e]; cbn [eq_rect Eff.bind Eff.exec]; [| reflexivity].
  destruct (h (sleep 3) w5) as [u' w6]. reflexivity.
Qed.

(** C8: once the reply has been entered, the method looks for the enabled
    publish buttons. When it finds at least two, it scrolls to the second
    one and, if that did not raise, clicks the second one and returns what
    the click gave; no other button is touched. When it finds fewer than
    two, it makes no further call and raises. *)
Theorem reply_clicks_second_button video_url username reply_text w w1 calls1
    publish_buttons w2 :
  Eff.exec h (prepare_reply video_url username reply_text) w = (Ok tt, w1, calls1) ->
  h (find_elements publish_buttons_xpath) w1 = (Ok publish_buttons, w2) ->
  (2 <= len publish_buttons ->
   exists second,
     nth_error publish_buttons 1 = Some second
     /\ forall w3 u w4 clicked w5,
          h (execute_script scrollIntoView second) w2 = (Ok tt, w3) ->
          h (sleep 1) w3 = (u, w4) ->
          h (execute_script click second) w4 = (clicked, w5) ->
          Eff.result h (reply_to_comment video_url username reply_text) w = clicked
          /\ Eff.calls h (reply_to_comment video_url username reply_text) w
             = calls1
               ++ [find_elements publish_buttons_xpath;
                   execute_script scrollIntoView second;
                   sleep 1;
                   execute_script click second]
               ++ match clicked with
                  | Ok _ => [sleep 3]
                  | Raise _ => []
                  end)
  /\ (len publish_buttons < 2 ->
      Eff.result h (reply_to_comment video_url username reply_text) w
      = Raise (Exception_ (py "Bouton publier non trouvé"))
      /\ Eff.calls h (reply_to_comment video_url username reply_text) w
         = calls1 ++ [find_elements publish_buttons_xpath]).
Proof.
  intros Hprep Hfind. unfold Eff.result, Eff.calls. rewrite reply_to_comment_run, Hprep.
  split.
  - intros Hlen.
    destruct publish_buttons as [| first [| second others]];
      [unfold len in Hlen; cbn in Hlen; lia | unfold len in Hlen; cbn in Hlen; lia |].
    exists second. split; [reflexivity |].
    intros w3 u w4 clicked w5 Hscroll Hsleep Hclick.
    rewrite (publish_reply_second _ _ _ _ _ _ _ _ _ _ Hfind Hscroll Hsleep Hclick).
    destruct clicked as [[] | e]; split; reflexivity.
  - intros Hlen. rewrite (publish_reply_too_few _ _ _ Hfind Hlen). split; reflexivity.
Qed.

End ReplyFacts.

(** ** The properties on the sample data *)

Lemma generate_batch_degrades_witness :
  exists replies,
    Eff.result (Samples.answering (Raise APIError))
      (AIHandler.generate_batch_responses Samples.json_loads Samples.self Samples.comments
         Samples.video_title Samples.hashtags) tt
    = Ok replies
    /\ length replies = 2%nat
    /\ Forall (fun r => r = JStr (py "Merci pour ton commentaire")) replies.
Proof.
  destruct (generate_batch_degrades Samples.json_loads (Samples.answering (Raise APIError))
              Samples.self
              {| AIHandler.username := py "fatima_dz";
                 AIHandler.comment_text := py "MashaAllah super vidéo! Où tu as acheté ça?" |}
              [ {| AIHandler.username := py "muslima_paris";
                   AIHandler.comment_text := py "Baraka Allahou fik pour le partage ma sœur" |} ]
              Samples.video_title Samples.hashtags tt APIError eq_refl)
    as (replies & Hres & Hlen & Hall & _).
  exists replies. split; [exact Hres |]. split; [exact Hlen | exact Hall].
Defined.

Lemma generate_batch_decode_failure_witness :
  Eff.result (Samples.answering (Ok [Some Samples.not_json]))
    (AIHandler.generate_batch_responses Samples.json_loads Samples.self Samples.comments
       Samples.video_title Samples.hashtags) tt
  = Ok [AIHandler.default_reply; AIHandler.default_reply].
Proof.
  refine (proj2 (generate_batch_decode_failure Samples.json_loads
                   (Samples.answering (Ok [Some Samples.not_json])) Samples.self
                   {| AIHandler.username := py "fatima_dz";
                      AIHandler.comment_text :=
                        py "MashaAllah super vidéo! Où tu as acheté ça?" |}
                   [ {| AIHandler.username := py "muslima_paris";
                        AIHandler.comment_text :=
                          py "Baraka Allahou fik pour le partage ma sœur" |} ]
                   Samples.video_title Samples.hashtags tt
                   [Some Samples.not_json] Samples.not_json Samples.not_json
                   eq_refl _ _ _)).
  - vm_compute. reflexivity.
  - vm_compute. reflexivity.
  - vm_compute. reflexivity.
Defined.

(** C1 as stated does not hold: on the two sample comments, with a
    completion whose text is not JSON, decoding fails and yet the batch
    generator raises nothing; it returns two default replies. *)
Lemma generate_batch_decode_failure_counterexample :
  Samples.comments <> []
  /\ AIHandler.first_content [Some Samples.not_json] = Ok Samples.not_json
  /\ AIHandler.clean Samples.not_json = Ok Samples.not_json
  /\ Samples.json_loads Samples.not_json = Raise JSONDecodeError
  /\ Eff.result (Samples.answering (Ok [Some Samples.not_json]))
       (AIHandler.generate_batch_responses Samples.json_loads Samples.self Samples.comments
          Samples.video_title Samples.hashtags) tt
     = Ok [AIHandler.default_reply; AIHandler.default_reply]
  /\ ~ raises
        (Eff.result (Samples.answering (Ok [Some Samples.not_json]))
           (AIHandler.generate_batch_responses Samples.json_loads Samples.self
              Samples.comments Samples.video_title Samples.hashtags) tt).
Proof.
  split; [discriminate |].
  split; [vm_compute; reflexivity |].
  split; [vm_compute; reflexivity |].
  split; [vm_compute; reflexivity |].
  split; [vm_compute; reflexivity |].
  intros [e He]. vm_compute in He. discriminate He.
Qed.

Lemma generate_batch_cardinality_witness :
  Eff.result (Samples.answering (Ok [Some Samples.three_replies_text]))
    (AIHandler.generate_batch_responses Samples.json_loads Samples.self Samples.comments
       Samples.video_title Samples.hashtags) tt
  = Ok [JStr (py "Coucou Fatima"); JStr (py "Coucou ma soeur"); JStr (py "Hello")].
Proof.
  refine (proj1 (generate_batch_cardinality Samples.json_loads
                   (Samples.answering (Ok [Some Samples.three_replies_text])) Samples.self
                   {| AIHandler.username := py "fatima_dz";
                      AIHandler.comment_text :=
                        py "MashaAllah super vidéo! Où tu as acheté ça?" |}
                   [ {| AIHandler.username := py "muslima_paris";
                        AIHandler.comment_text :=
                          py "Baraka Allahou fik pour le partage ma sœur" |} ]
                   Samples.video_title Samples.hashtags tt
                   [Some Samples.three_replies_text] Samples.three_replies_text
                   Samples.three_replies_json
                   [(py "responses", JArr Samples.three_replies_items)]
                   Samples.three_replies_items
                   [JStr (py "Coucou Fatima"); JStr (py "Coucou ma soeur"); JStr (py "Hello")]
                   eq_refl _ _ _ _ _)).
  - vm_compute. reflexivity.
  - vm_compute. reflexivity.
  - vm_compute. reflexivity.
  - vm_compute. reflexivity.
  - repeat (apply Forall2_cons; [eexists; split; [reflexivity | vm_compute; reflexivity] |]).
    apply Forall2_nil.
Defined.

Lemma truncate_response_spec_witness :
  AIHandler.truncate_response (py "Coucou") 114 = py "Coucou"
  /\ len (AIHandler.truncate_response (repeat 97%N 120) 114) = 114.
Proof.
  split.
  - apply (truncate_response_spec (py "Coucou")). vm_compute. discriminate.
  - apply (truncate_response_spec (repeat 97%N 120)). vm_compute. reflexivity.
Defined.

Lemma extract_self_filter_witness :
  Scraper.extract_block Samples.operator_block = None
  /\ Scraper.extract_block Samples.fan_block
     = Some {| Scraper.username := py "fan de soeur bonplan 🎀 !";
               Scraper.comment_text := py "Trop bien";
               Scraper.comment_element := Samples.fan_block |}.
Proof.
  split.
  - refine (proj1 (proj2 (proj2 (extract_self_filter Samples.operator_block
                                   (py "Soeur BonPlan 🎀") (py "Merci les filles") _ _))) _).
    + vm_compute. reflexivity.
    + reflexivity.
    + vm_compute. repeat constructor.
  - refine (proj2 (proj2 (proj2 (extract_self_filter Samples.fan_block
                                   (py "fan de soeur bonplan 🎀 !") (py " Trop bien ") _ _))) _).
    + vm_compute. reflexivity.
    + reflexivity.
    + exists (py "fan de "), (py " !"). split; [vm_compute; reflexivity |].
      vm_compute. discriminate.
Defined.


Lemma moderation_noop_witness :
  App.validate_comment Samples.str_exn 300
    {| App.comment_id := 1; App.action := py "modify"; App.modified_response := None |}
    Samples.store
  = (Ok (App.ack {| App.comment_id := 1; App.action := py "modify";
                    App.modified_response := None |}),
     Samples.store)
  /\ App.validate_comment Samples.str_exn 300
       {| App.comment_id := 1; App.action := py "archive";
          App.modified_response := Some (py "Hello") |}
       Samples.store
     = (Ok (App.ack {| App.comment_id := 1; App.action := py "archive";
                       App.modified_response := Some (py "Hello") |}),
        Samples.store).
Proof.
  split.
  - apply (moderation_noop Samples.str_exn 300 Samples.store _ Samples.published_row).
    + reflexivity.
    + left. split; reflexivity.
  - apply (moderation_noop Samples.str_exn 300 Samples.store _ Samples.published_row).
    + reflexivity.
    + right. repeat split; literal_neq.
Defined.

Lemma publish_rejected_witness :
  exists n,
    (0 < n)%Z
    /\ App.publish_comments Samples.str_exn
         {| App.comment_ids := [2; 3]; App.account_id := 1 |} Samples.store
       = (Raise (HTTPException 500
                   (py "Erreur: "
                    ++ Samples.str_exn
                         (HTTPException 400
                            (str_of_int n ++ py " commentaires non validés")))),
          Samples.store).
Proof.
  apply (publish_rejected Samples.str_exn Samples.store
           {| App.comment_ids := [2; 3]; App.account_id := 1 |} Samples.pending_row).
  - cbn. repeat constructor.
  - cbn. repeat constructor.
  - literal_neq.
Defined.

Lemma reply_clicks_second_button_witness :
  Eff.result (Samples.page [20%N; 21%N])
    (Scraper.reply_to_comment Samples.video_url (py "fatima_dz") (py "Coucou Fatima")) tt
  = Ok tt
  /\ Eff.result (Samples.page [20%N])
       (Scraper.reply_to_comment Samples.video_url (py "fatima_dz") (py "Coucou Fatima")) tt
     = Raise (Exception_ (py "Bouton publier non trouvé")).
Proof.
  split.
  - edestruct (reply_clicks_second_button (Samples.page [20%N; 21%N]) Samples.video_url
                 (py "fatima_dz") (py "Coucou Fatima") tt tt) as [Htwo _].
    + vm_compute. reflexivity.
    + reflexivity.
    + destruct Htwo as (second & Hsecond & Hrun); [vm_compute; discriminate |].
      injection Hsecond as <-.
      exact (proj1 (Hrun tt tt tt (Ok tt) tt eq_refl eq_refl eq_refl)).
  - edestruct (reply_clicks_second_button (Samples.page [20%N]) Samples.video_url
                 (py "fatima_dz") (py "Coucou Fatima") tt tt) as [_ Hfew].
    + vm_compute. reflexivity.
    + reflexivity.
    + exact (proj1 (Hfew eq_refl)).
Defined.

(** * Further properties *)

(** ** Truncation at other ceilings *)

Section TruncateMore.
Import AIHandler.

(** X1: for every ceiling of at least 3, the truncated reply fits the
    ceiling, passes [validate_response_length], and truncating it again
    changes nothing. *)
Theorem truncate_fits (response : pystr) (max_length : Z) :
  3 <= max_length ->
  len (truncate_response response max_length) <= max_length
  /\ validate_response_length (truncate_response response max_length) max_length = true
  /\ truncate_response (truncate_response response max_length) max_length
     = truncate_response response max_length.
Proof.
  intros Hmax.
  assert (Hlen : len (truncate_response response max_length) <= max_length).
  { unfold truncate_response.
    destruct (Z.leb_spec (len response) max_length) as [Hle | Hgt]; [exact Hle |].
    unfold slice_to. destruct (Z.leb_spec 0 (max_length - 3)); [| lia].
    unfold len in *. rewrite length_app, length_take.
    change (length (py "...")) with 3%nat. lia. }
  split; [exact Hlen |]. split.
  - unfold validate_response_length. apply Z.leb_le, Hlen.
  - unfold truncate_response at 1.
    destruct (Z.leb_spec (len (truncate_response response max_length)) max_length);
      [reflexivity | lia].
Qed.

(** X2: for a ceiling below 3 the slice bound [max_length - 3] is negative
    and counts from the end: a reply longer than the ceiling comes back with
    [max (len + max_length) 3] characters, which is more than the ceiling. *)
Theorem truncate_overshoots (response : pystr) (max_length : Z) :
  max_length < 3 ->
  max_length < len response ->
  len (truncate_response response max_length) = Z.max (len response + max_length) 3
  /\ max_length < len (truncate_response response max_length)
  /\ validate_response_length (truncate_response response max_length) max_length = false.
Proof.
  intros Hmax Hlong.
  assert (Hlen : len (truncate_response response max_length)
                 = Z.max (len response + max_length) 3).
  { unfold truncate_response.
    destruct (Z.leb_spec (len response) max_length); [lia |].
    unfold slice_to. destruct (Z.leb_spec 0 (max_length - 3)); [lia |].
    unfold len in *. rewrite length_app, length_take.
    change (length (py "...")) with 3%nat. lia. }
  split; [exact Hlen |]. split; [lia |].
  unfold validate_response_length. apply Z.leb_gt. lia.
Qed.

End TruncateMore.

Lemma truncate_fits_witness :
  len (AIHandler.truncate_response (py "Coucou ma soeur") 10) <= 10.
Proof. apply (truncate_fits (py "Coucou ma soeur") 10). lia. Defined.

Lemma truncate_overshoots_witness :
  len (AIHandler.truncate_response (py "Coucou") 2) = 8.
Proof.
  apply (truncate_overshoots (py "Coucou") 2); [lia | vm_compute; reflexivity].
Defined.

(** ** Batch generation on other completions *)

Section BatchMore.
Import AIHandler.
Context {W : Type}.
Variable json_loads : pystr -> pyresult json.
Variable h : Eff.world AIHandler.answer W.
Variable self : AIResponseGenerator.

(** X3: whatever the batch and whatever the completion service answers,
    batch generation returns a list (it never raises) and sends at most one
    request. *)
Theorem generate_batch_total comments_data video_title hashtags w :
  (exists replies,
     Eff.result h
       (generate_batch_responses json_loads self comments_data video_title hashtags) w
     = Ok replies)
  /\ (length (Eff.calls h
                (generate_batch_responses json_loads self comments_data video_title hashtags)
                w) <= 1)%nat.
Proof.
  unfold Eff.result, Eff.calls. destruct comments_data as [| c cs].
  - split; [eexists; reflexivity | cbn; lia].
  - rewrite generate_batch_run. split; [eexists; reflexivity | cbn; lia].
Qed.

(** X4: when the completion decodes to an object that has no [responses]
    key, the generator returns the empty list, not one default reply per
    comment. *)
Theorem generate_batch_missing_responses c cs video_title hashtags w response text cleaned
    members :
  let request :=
    chat_completions_create
      (batch_request self (_build_batch_prompt (c :: cs) video_title hashtags)) in
  (h request w).1 = Ok response ->
  first_content response = Ok text ->
  clean text = Ok cleaned ->
  json_loads cleaned = Ok (JObj members) ->
  assoc (py "responses") members = None ->
  Eff.result h (generate_batch_responses json_loads self (c :: cs) video_title hashtags) w
  = Ok [].
Proof.
  intros request Hcall Hfirst Hclean Hloads Hnone.
  unfold Eff.result. rewrite generate_batch_run. fold request.
  unfold attempt. rewrite Hcall. cbn [rbind]. rewrite Hfirst. cbn [rbind].
  unfold _parse_json_response. rewrite Hclean. cbn [rbind]. rewrite Hloads.
  cbn [rbind get]. rewrite Hnone. reflexivity.
Qed.

(** The parser raises on a document that is not an object. *)
Lemma parse_not_object text cleaned document :
  clean text = Ok cleaned ->
  json_loads cleaned = Ok document ->
  (forall members, document <> JObj members) ->
  _parse_json_response json_loads text = Raise AttributeError.
Proof.
  intros Hclean Hloads Hdoc. unfold _parse_json_response.
  rewrite Hclean. cbn [rbind]. rewrite Hloads. cbn [rbind].
  destruct document; try reflexivity. exfalso. eapply Hdoc. reflexivity.
Qed.

(** The comprehension raises as soon as one entry is not an object. *)
Lemma comprehension_not_object items :
  Exists (fun item => forall fields, item <> JObj fields) items ->
  comprehension
    (fun item => get item (py "chatgpt_response") (JStr (py "Hello! Merci ")))
    items = Raise AttributeError.
Proof.
  induction 1 as [item items Hitem | item items _ IH].
  - cbn [comprehension]. destruct item; try reflexivity. exfalso. eapply Hitem. reflexivity.
  - cbn [comprehension]. destruct item; try reflexivity.
    cbn [get rbind]. rewrite IH. reflexivity.
Qed.

(** X5: when the completion decodes to a document that is not an object (an
    array, a string, a number, ...), the generator returns one default reply
    per comment. *)
Theorem generate_batch_not_object c cs video_title hashtags w response text cleaned
    document :
  let request :=
    chat_completions_create
      (batch_request self (_build_batch_prompt (c :: cs) video_title hashtags)) in
  (h request w).1 = Ok response ->
  first_content response = Ok text ->
  clean text = Ok cleaned ->
  json_loads cleaned = Ok document ->
  (forall members, document <> JObj members) ->
  Eff.result h (generate_batch_responses json_loads self (c :: cs) video_title hashtags) w
  = Ok (map (fun _ => default_reply) (c :: cs)).
Proof.
  intros request Hcall Hfirst Hclean Hloads Hdoc.
  unfold Eff.result. rewrite generate_batch_run. fold request.
  unfold attempt. rewrite Hcall. cbn [rbind]. rewrite Hfirst. cbn [rbind].
  rewrite (parse_not_object _ _ _ Hclean Hloads Hdoc). reflexivity.
Qed.

(** X6: when one entry of the [responses] array is not an object, the
    replies of the other entries are lost with it: the generator returns one
    default reply per comment. *)
Theorem generate_batch_bad_entry c cs video_title hashtags w response text cleaned
    members items :
  let request :=
    chat_completions_create
      (batch_request self (_build_batch_prompt (c :: cs) video_title hashtags)) in
  (h request w).1 = Ok response ->
  first_content response = Ok text ->
  clean text = Ok cleaned ->
  json_loads cleaned = Ok (JObj members) ->
  assoc (py "responses") members = Some (JArr items) ->
  Exists (fun item => forall fields, item <> JObj fields) items ->
  Eff.result h (generate_batch_responses json_loads self (c :: cs) video_title hashtags) w
  = Ok (map (fun _ => default_reply) (c :: cs)).
Proof.
  intros request Hcall Hfirst Hclean Hloads Hresp Hbad.
  unfold Eff.result. rewrite generate_batch_run. fold request.
  unfold attempt. rewrite Hcall. cbn [rbind]. rewrite Hfirst. cbn [rbind].
  unfold _parse_json_response. rewrite Hclean. cbn [rbind]. rewrite Hloads.
  cbn [rbind get]. rewrite Hresp. cbn [default from_option id rbind iter].
  rewrite (comprehension_not_object _ Hbad). reflexivity.
Qed.

End BatchMore.

Lemma generate_batch_missing_responses_witness :
  Eff.result (Samples.answering (Ok [Some (py " {} ")]))
    (AIHandler.generate_batch_responses MoreSamples.json_loads Samples.self Samples.comments
       Samples.video_title Samples.hashtags) tt
  = Ok [].
Proof.
  refine (generate_batch_missing_responses MoreSamples.json_loads
            (Samples.answering (Ok [Some (py " {} ")])) Samples.self
            {| AIHandler.username := py "fatima_dz";
               AIHandler.comment_text := py "MashaAllah super vidéo! Où tu as acheté ça?" |}
            [ {| AIHandler.username := py "muslima_paris";
                 AIHandler.comment_text := py "Baraka Allahou fik pour le partage ma sœur" |} ]
            Samples.video_title Samples.hashtags tt
            [Some (py " {} ")] (py "{}") (py "{}") [] eq_refl _ _ _ _);
    vm_compute; reflexivity.
Defined.

Lemma generate_batch_not_object_witness :
  Eff.result (Samples.answering (Ok [Some (py "[]")]))
    (AIHandler.generate_batch_responses MoreSamples.json_loads Samples.self Samples.comments
       Samples.video_title Samples.hashtags) tt
  = Ok [AIHandler.default_reply; AIHandler.default_reply].
Proof.
  refine (generate_batch_not_object MoreSamples.json_loads
            (Samples.answering (Ok [Some (py "[]")])) Samples.self
            {| AIHandler.username := py "fatima_dz";
               AIHandler.comment_text := py "MashaAllah super vidéo! Où tu as acheté ça?" |}
            [ {| AIHandler.username := py "muslima_paris";
                 AIHandler.comment_text := py "Baraka Allahou fik pour le partage ma sœur" |} ]
            Samples.video_title Samples.hashtags tt
            [Some (py "[]")] (py "[]") (py "[]") (JArr []) eq_refl _ _ _ _).
  - vm_compute. reflexivity.
  - vm_compute. reflexivity.
  - vm_compute. reflexivity.
  - discriminate.
Defined.

Lemma generate_batch_bad_entry_witness :
  Eff.result (Samples.answering (Ok [Some MoreSamples.mixed_entries_json]))
    (AIHandler.generate_batch_responses MoreSamples.json_loads Samples.self Samples.comments
       Samples.video_title Samples.hashtags) tt
  = Ok [AIHandler.default_reply; AIHandler.default_reply].
Proof.
  refine (generate_batch_bad_entry MoreSamples.json_loads
            (Samples.answering (Ok [Some MoreSamples.mixed_entries_json])) Samples.self
            {| AIHandler.username := py "fatima_dz";
               AIHandler.comment_text := py "MashaAllah super vidéo! Où tu as acheté ça?" |}
            [ {| AIHandler.username := py "muslima_paris";
                 AIHandler.comment_text := py "Baraka Allahou fik pour le partage ma sœur" |} ]
            Samples.video_title Samples.hashtags tt
            [Some MoreSamples.mixed_entries_json] MoreSamples.mixed_entries_json
            MoreSamples.mixed_entries_json
            [(py "responses",
              JArr [JObj [(py "chatgpt_response", JStr (py "Coucou"))]; JInt 7])]
            [JObj [(py "chatgpt_response", JStr (py "Coucou"))]; JInt 7]
            eq_refl _ _ _ _ _).
  - vm_compute. reflexivity.
  - vm_compute. reflexivity.
  - vm_compute. reflexivity.
  - vm_compute. reflexivity.
  - apply Exists_cons_tl, Exists_cons_hd. discriminate.
Defined.

(** ** Removing the code fence *)

Section CleanFacts.
Import AIHandler.

Local Abbreviation no_backtick := (Forall (fun c : N => c <> 96%N)).

Ltac list_norm :=
  repeat (progress (rewrite ?rev_app_distr, ?rev_involutive, <- ?app_assoc; cbn [rev app])).

Ltac fences :=
  change (py "```json") with [96; 96; 96; 106; 115; 111; 110]%N in *;
  change (py "```") with [96; 96; 96]%N in *.

Lemma lstrip_app_nonspace pre c rest :
  isspace c = false -> lstrip (pre ++ c :: rest) = lstrip pre ++ c :: rest.
Proof.
  intros E. induction pre as [| a pre IH]; cbn [app lstrip].
  - rewrite E. reflexivity.
  - destruct (isspace a); [exact IH | reflexivity].
Qed.

Lemma rstrip_app_nonspace front c tail :
  isspace c = false -> rstrip (front ++ c :: tail) = front ++ c :: rstrip tail.
Proof.
  intros E. unfold rstrip. rewrite rev_app_distr. cbn [rev].
  rewrite <- app_assoc. cbn [app]. rewrite lstrip_app_nonspace by exact E.
  rewrite rev_app_distr. cbn [rev]. rewrite rev_involutive, <- app_assoc. reflexivity.
Qed.

(** Stripping a text whose core starts and ends with visible characters
    strips what is around the core. *)
Lemma strip_around pre c core d tail :
  isspace c = false -> isspace d = false ->
  strip (pre ++ c :: core ++ d :: tail) = lstrip pre ++ c :: core ++ d :: rstrip tail.
Proof.
  intros Ec Ed. unfold strip. rewrite lstrip_app_nonspace by exact Ec.
  replace (lstrip pre ++ c :: core ++ d :: tail)
    with ((lstrip pre ++ c :: core) ++ d :: tail)
    by (rewrite <- app_assoc; reflexivity).
  rewrite rstrip_app_nonspace by exact Ed. rewrite <- app_assoc. reflexivity.
Qed.

Lemma Forall_lstrip (P : N -> Prop) s : Forall P s -> Forall P (lstrip s).
Proof.
  induction 1 as [| c s Hc Hs IH]; cbn [lstrip]; [constructor |].
  destruct (isspace c); [exact IH | constructor; assumption].
Qed.

Lemma Forall_rstrip (P : N -> Prop) s : Forall P s -> Forall P (rstrip s).
Proof.
  intros H. unfold rstrip. apply Forall_rev, Forall_lstrip, Forall_rev, H.
Qed.

Lemma Forall_strip (P : N -> Prop) s : Forall P s -> Forall P (strip s).
Proof. intros H. apply Forall_rstrip, Forall_lstrip, H. Qed.

(** Scanning over characters that cannot start the separator. *)
Lemma split_go_skip c sep' t rest cur :
  Forall (fun a => a <> c) t ->
  split_go (c :: sep') (t ++ rest) 0 cur = split_go (c :: sep') rest 0 (rev t ++ cur).
Proof.
  intros H. revert cur. induction H as [| a t Ha _ IH]; intros cur; [reflexivity |].
  cbn [app split_go startswith].
  replace (c =? a)%N with false by (symmetry; apply N.eqb_neq; congruence).
  cbn [andb]. rewrite IH. cbn [rev]. rewrite <- app_assoc. reflexivity.
Qed.

Lemma contains_skip c sep' t rest :
  Forall (fun a => a <> c) t ->
  contains (c :: sep') (t ++ rest) = contains (c :: sep') rest.
Proof.
  induction 1 as [| a t Ha _ IH]; [reflexivity |].
  cbn [app contains startswith].
  replace (c =? a)%N with false by (symmetry; apply N.eqb_neq; congruence).
  cbn [andb orb]. exact IH.
Qed.

Lemma contains_none c sep' t :
  Forall (fun a => a <> c) t -> contains (c :: sep') t = false.
Proof.
  intros H. rewrite <- (app_nil_r t), contains_skip by exact H. reflexivity.
Qed.

Lemma startswith_nil s : startswith s [] = true.
Proof. destruct s; reflexivity. Qed.

Lemma startswith_app p rest : startswith (p ++ rest) p = true.
Proof.
  induction p as [| c p IH]; [apply startswith_nil |].
  cbn [app startswith]. rewrite N.eqb_refl. exact IH.
Qed.

Lemma contains_prefix p rest : contains p (p ++ rest) = true.
Proof.
  pose proof (startswith_app p rest) as H.
  destruct (p ++ rest); cbn [contains]; rewrite H; reflexivity.
Qed.

Lemma split_go_hit sep c s cur :
  startswith (c :: s) sep = true ->
  split_go sep (c :: s) 0 cur = rev cur :: split_go sep s (length sep - 1) [].
Proof. intros E. cbn [split_go]. rewrite E. reflexivity. Qed.

Lemma split_go_miss sep c s cur :
  startswith (c :: s) sep = false ->
  split_go sep (c :: s) 0 cur = split_go sep s 0 (c :: cur).
Proof. intros E. cbn [split_go]. rewrite E. reflexivity. Qed.

(** A text without backticks followed by a closing fence: the first piece
    is the text. *)
Lemma split_close body tail :
  no_backtick body ->
  index (split (body ++ py "```" ++ tail) (py "```")) 0 = Ok body.
Proof.
  intros Hb. unfold split. fences. rewrite split_go_skip by exact Hb.
  cbn [app]. rewrite split_go_hit by apply (startswith_app [96; 96; 96]%N).
  cbn [index nth_error]. rewrite app_nil_r, rev_involutive. reflexivity.
Qed.

Lemma split_unfenced body :
  no_backtick body -> index (split body (py "```")) 0 = Ok body.
Proof.
  intros Hb. unfold split. fences. rewrite <- (app_nil_r body) at 1.
  rewrite split_go_skip by exact Hb. cbn [split_go index nth_error].
  rewrite app_nil_r, rev_involutive. reflexivity.
Qed.

(** What follows an opening json fence: the piece after it is the body,
    alone or with the closing fence and the tail still attached. *)
Lemma split_open_json body tail :
  no_backtick body -> no_backtick tail ->
  exists piece rest,
    split_go (py "```json") (body ++ py "```" ++ tail) 0 [] = piece :: rest
    /\ (piece = body \/ piece = body ++ py "```" ++ tail).
Proof.
  intros Hb Ht. fences. rewrite split_go_skip by exact Hb. rewrite app_nil_r.
  destruct Ht as [| a tail Ha Ht]; cbn [app].
  - rewrite !split_go_miss by reflexivity. cbn [split_go].
    eexists _, _. split; [reflexivity |]. right. list_norm. reflexivity.
  - assert (Hna : (96 =? a)%N = false) by (apply N.eqb_neq; congruence).
    destruct (startswith (a :: tail) [106; 115; 111; 110]%N) eqn:E.
    + rewrite split_go_hit by (cbn [startswith]; rewrite !N.eqb_refl; exact E).
      eexists _, _. split; [reflexivity |]. left. apply rev_involutive.
    + rewrite split_go_miss by (cbn [startswith]; rewrite !N.eqb_refl; exact E).
      rewrite split_go_miss by (cbn [startswith]; rewrite Hna; reflexivity).
      rewrite split_go_miss by (cbn [startswith]; rewrite Hna; reflexivity).
      rewrite <- (app_nil_r (a :: tail)).
      rewrite split_go_skip by (constructor; assumption).
      cbn [split_go]. eexists _, _. split; [reflexivity |]. right.
      rewrite app_nil_r. list_norm. reflexivity.
Qed.

(** X7: a completion that wraps its JSON in a json code fence, with or
    without prose before the fence and after it, is cleaned to the stripped
    body of the fence, provided prose and body contain no backtick. *)
Theorem clean_fenced_json pre body tail :
  no_backtick pre -> no_backtick body -> no_backtick tail ->
  clean (pre ++ py "```json" ++ body ++ py "```" ++ tail) = Ok (strip body).
Proof.
  intros Hp Hb Ht. unfold clean.
  assert (Hstrip :
    strip (pre ++ py "```json" ++ body ++ py "```" ++ tail)
    = lstrip pre ++ py "```json" ++ body ++ py "```" ++ rstrip tail).
  { fences.
    pose proof (strip_around pre 96%N ([96; 96; 106; 115; 111; 110]%N ++ body ++ [96; 96]%N)
                  96%N tail eq_refl eq_refl) as H.
    cbn [app] in H. rewrite <- !app_assoc in H. cbn [app] in H. exact H. }
  rewrite Hstrip. clear Hstrip.
  apply Forall_lstrip in Hp. apply Forall_rstrip in Ht.
  set (P := lstrip pre) in *. set (T := rstrip tail) in *.
  assert (Hin : contains (py "```json") (P ++ py "```json" ++ body ++ py "```" ++ T) = true).
  { fences. rewrite contains_skip by exact Hp. apply contains_prefix. }
  rewrite Hin.
  destruct (split_open_json body T Hb Ht) as (piece & rest & Hsplit & Hpiece).
  assert (Hone : index (split (P ++ py "```json" ++ body ++ py "```" ++ T) (py "```json")) 1
                 = Ok piece).
  { unfold split. fences. rewrite split_go_skip by exact Hp.
    cbn [app].
    rewrite split_go_hit by apply (startswith_app [96; 96; 96; 106; 115; 111; 110]%N).
    cbn [length Nat.sub split_go]. cbn [app] in Hsplit. rewrite Hsplit. reflexivity. }
  rewrite Hone. cbn [rbind].
  destruct Hpiece as [-> | ->].
  - rewrite (split_unfenced body Hb). reflexivity.
  - rewrite (split_close body T Hb). reflexivity.
Qed.

(** X8: a completion without any backtick is cleaned to its stripped text:
    blank space around the JSON is dropped and nothing else. *)
Theorem clean_unfenced text :
  no_backtick text -> clean text = Ok (strip text).
Proof.
  intros H. unfold clean. apply (Forall_strip _ _) in H as Hs. fences.
  rewrite !(contains_none 96%N _ _ Hs). cbn [rbind]. rewrite strip_idem. reflexivity.
Qed.

End CleanFacts.

Lemma clean_fenced_json_witness :
  AIHandler.clean (py "Voici:
```json
{}
```
Bonne journée") = Ok (py "{}").
Proof.
  apply (clean_fenced_json (py "Voici:
") (py "
{}
") (py "
Bonne journée")); vm_compute; repeat constructor; discriminate.
Defined.

Lemma clean_unfenced_witness : AIHandler.clean (py " [] ") = Ok (py "[]").
Proof.
  apply (clean_unfenced (py " [] ")). vm_compute. repeat constructor; discriminate.
Defined.

(** ** Extraction: what the returned list holds *)

Section ExtractMore.
Import Scraper.

Lemma extract_block_some comment_block c :
  extract_block comment_block = Some c ->
  comment_element c = comment_block
  /\ is_excluded (Scraper.username c) = false
  /\ resolve_username comment_block = Ok (Scraper.username c)
  /\ exists text, comment_text_text comment_block = Ok text
                  /\ Scraper.comment_text c = strip text.
Proof.
  unfold extract_block.
  destruct (resolve_username comment_block) as [u | e]; cbn [rbind]; [| discriminate].
  destruct (comment_text_text comment_block) as [t | e].
  - destruct (is_excluded u) eqn:E; [discriminate |]. intros [= <-]. cbn.
    split; [reflexivity |]. split; [exact E |]. split; [reflexivity |]. eauto.
  - destruct e; discriminate.
Qed.

Lemma omap_elements_sublist comment_blocks :
  map comment_element (omap extract_block comment_blocks) `sublist_of` comment_blocks.
Proof.
  induction comment_blocks as [| b bs IH]; cbn [omap list_omap map]; [constructor |].
  destruct (extract_block b) as [c |] eqn:E; cbn [map].
  - apply extract_block_some in E as (-> & _). apply sublist_skip, IH.
  - apply sublist_cons, IH.
Qed.

(** X9: every entry of the extracted list comes from a block of the page
    whose identity and text both resolved: its identity passes the
    self-filter and its text is stripped. The entries keep the page order of
    their blocks, at most one per block, and when the block lookup itself
    fails the list is empty. *)
Theorem extract_comments_entries (found : pyresult (list comment_block)) :
  Forall (fun c =>
            extract_block (comment_element c) = Some c
            /\ is_excluded (Scraper.username c) = false
            /\ strip (Scraper.comment_text c) = Scraper.comment_text c)
         (_extract_comments found)
  /\ (forall comment_blocks,
        found = Ok comment_blocks ->
        map comment_element (_extract_comments found) `sublist_of` comment_blocks)
  /\ (forall e, found = Raise e -> _extract_comments found = []).
Proof.
  split; [| split].
  - destruct found as [bs | e]; cbn [_extract_comments]; [| constructor].
    rewrite extract_loop_omap. cbn [app].
    apply List.Forall_forall. intros c Hc. apply list_elem_of_In in Hc.
    apply list_elem_of_omap in Hc as (b & _ & Hb).
    pose proof (extract_block_some _ _ Hb) as (Hel & Hex & _ & t & _ & Ht).
    split; [rewrite Hel; exact Hb |]. split; [exact Hex |].
    rewrite Ht. apply strip_idem.
  - intros bs ->. cbn [_extract_comments]. rewrite extract_loop_omap. cbn [app].
    apply omap_elements_sublist.
  - intros e ->. reflexivity.
Qed.

(** A block with a comment text but neither a user link nor a display
    name is not dropped: it is returned with the empty string as identity. *)
Theorem extract_block_anonymous comment_block text :
  username_element comment_block = Raise NoSuchElementException ->
  display_name_text comment_block = Raise NoSuchElementException ->
  comment_text_text comment_block = Ok text ->
  extract_block comment_block
  = Some {| Scraper.username := [];
            Scraper.comment_text := strip text;
            comment_element := comment_block |}.
Proof.
  intros Hu Hd Ht.
  assert (Hres : resolve_username comment_block = Ok []).
  { unfold resolve_username, username_from_link, username_with_display_name.
    rewrite Hu, Hd. reflexivity. }
  rewrite (extract_block_resolved _ _ _ Hres Ht). reflexivity.
Qed.

(** When the display name is there and not blank, it is the identity,
    whatever the user link gave, as long as reading the link did not fail
    with anything but a missing node. *)
Theorem display_name_wins comment_block from_link name :
  username_from_link comment_block = Ok from_link ->
  display_name_text comment_block = Ok name ->
  truthy (strip name) = true ->
  resolve_username comment_block = Ok (strip name).
Proof.
  intros Hl Hd Ht. unfold resolve_username. rewrite Hl. cbn [rbind].
  unfold username_with_display_name. rewrite Hd. cbn [rbind except_no_such_element].
  rewrite Ht. reflexivity.
Qed.

(** X10: an identity that starts with the at sign is never taken for the
    operator: the self-filter only ever matches display names and link
    texts, not handles read from a profile link. *)
Theorem handle_never_excluded (handle : pystr) :
  is_excluded (py "@" ++ handle) = false.
Proof.
  unfold is_excluded. apply bool_decide_eq_false_2.
  change (py "@" ++ handle) with (64%N :: handle). cbn [lower map].
  change (lower_cp 64) with 64%N. rewrite strip_cons by reflexivity.
  intros Heq. vm_compute in Heq. discriminate Heq.
Qed.

Lemma index_last_cons {A} (x : A) l r :
  index_last l = Ok r -> index_last (x :: l) = Ok r.
Proof.
  unfold index_last. cbn [rev]. destruct (rev l) as [| a t]; [discriminate |].
  intros [= <-]. reflexivity.
Qed.

Lemma contains_app_l sub pre s :
  contains sub s = true -> contains sub (pre ++ s) = true.
Proof.
  intros H. induction pre as [| c pre IH]; [exact H |].
  cbn [app contains]. rewrite IH. apply orb_true_r.
Qed.

(** The piece after the last [/@], when nothing after it has a slash. *)
Lemma split_handle_last pre rest :
  Forall (fun c => c <> 47%N) rest ->
  forall skip cur,
    (skip <= length pre)%nat ->
    index_last (split_go [47; 64]%N (pre ++ 47%N :: 64%N :: rest) skip cur) = Ok rest.
Proof.
  intros Hrest. induction pre as [| c pre IH]; intros skip cur Hskip.
  - assert (skip = 0%nat) as -> by (cbn in Hskip; lia).
    cbn [app]. cbn [split_go startswith]. rewrite !N.eqb_refl.
    assert (Hnil : startswith rest [] = true) by (destruct rest; reflexivity).
    rewrite Hnil. cbn [andb length Nat.sub split_go].
    rewrite <- (app_nil_r rest) at 1.
    rewrite (split_go_skip 47%N [64%N] rest [] [] Hrest).
    cbn [split_go]. rewrite app_nil_r, rev_involutive. reflexivity.
  - cbn [app]. destruct skip as [| k].
    + destruct (startswith (c :: pre ++ 47%N :: 64%N :: rest) [47; 64]%N) eqn:E.
      * cbn [split_go]. rewrite E. cbn [length Nat.sub].
        apply index_last_cons, IH.
        destruct pre as [| c' pre]; [| cbn; lia].
        cbn in E. rewrite andb_false_r in E. discriminate E.
      * cbn [split_go]. rewrite E. apply IH. lia.
    + cbn [split_go]. apply IH. cbn in Hskip. lia.
Qed.

Lemma split_profile_link pre rest :
  Forall (fun c => c <> 47%N) rest ->
  index_last (split (pre ++ 47%N :: 64%N :: rest) [47; 64]%N) = Ok rest.
Proof. intros H. unfold split. apply split_handle_last; [exact H | lia]. Qed.

(** The piece before the first question mark. *)
Lemma split_query_first handle suffix :
  Forall (fun c => c <> 63%N) handle ->
  suffix = [] \/ (exists query, suffix = 63%N :: query) ->
  index (split (handle ++ suffix) [63%N]) 0 = Ok handle.
Proof.
  intros Hh Hs. unfold split. rewrite (split_go_skip 63%N [] handle suffix [] Hh).
  rewrite app_nil_r. destruct Hs as [-> | (query & ->)].
  - cbn [split_go index nth_error]. rewrite rev_involutive. reflexivity.
  - cbn [split_go startswith]. rewrite N.eqb_refl.
    assert (Hnil : startswith query [] = true) by (destruct query; reflexivity).
    rewrite Hnil. cbn [andb index nth_error]. rewrite rev_involutive. reflexivity.
Qed.

(** X11: from a profile link [.../@handle] or [.../@handle?query], where
    neither the handle nor the query has a slash and the handle has no
    question mark, the first lookup yields the handle with an at sign in
    front, whatever the link text is. *)
Theorem username_from_profile_link comment_block l pre handle suffix :
  username_element comment_block = Ok l ->
  href l = Ok (Some (pre ++ py "/@" ++ handle ++ suffix)) ->
  Forall (fun c => c <> 47%N) (handle ++ suffix) ->
  Forall (fun c => c <> 63%N) handle ->
  suffix = [] \/ (exists query, suffix = 63%N :: query) ->
  username_from_link comment_block = Ok (py "@" ++ handle).
Proof.
  intros Hu Hh Hslash Hq Hsuffix. unfold username_from_link.
  rewrite Hu. cbn [rbind]. rewrite Hh. cbn [rbind default from_option id].
  change (py "/@") with [47; 64]%N. cbn [app].
  assert (Hin : contains [47; 64]%N (pre ++ 47%N :: 64%N :: handle ++ suffix) = true).
  { apply contains_app_l. cbn [contains startswith]. rewrite !N.eqb_refl.
    destruct (handle ++ suffix); reflexivity. }
  assert (Htruthy : truthy (pre ++ 47%N :: 64%N :: handle ++ suffix) = true)
    by (destruct pre; reflexivity).
  rewrite Htruthy, Hin. cbn [andb].
  rewrite (split_profile_link pre (handle ++ suffix) Hslash).
  cbn [rbind]. change (py "?") with [63%N].
  rewrite (split_query_first handle suffix Hq Hsuffix). reflexivity.
Qed.

End ExtractMore.

Lemma extract_comments_entries_witness :
  map Scraper.comment_element
    (Scraper._extract_comments (Ok [Samples.operator_block; Samples.fan_block]))
  `sublist_of` [Samples.operator_block; Samples.fan_block].
Proof.
  apply (extract_comments_entries (Ok [Samples.operator_block; Samples.fan_block])).
  reflexivity.
Defined.

Lemma extract_block_anonymous_witness :
  Scraper.extract_block
    {| Scraper.node := 3%N;
       Scraper.username_element := Raise NoSuchElementException;
       Scraper.display_name_text := Raise NoSuchElementException;
       Scraper.comment_text_text := Ok (py " Salam ") |}
  = Some {| Scraper.username := [];
            Scraper.comment_text := py "Salam";
            Scraper.comment_element :=
              {| Scraper.node := 3%N;
                 Scraper.username_element := Raise NoSuchElementException;
                 Scraper.display_name_text := Raise NoSuchElementException;
                 Scraper.comment_text_text := Ok (py " Salam ") |} |}.
Proof.
  apply (extract_block_anonymous _ (py " Salam ")); reflexivity.
Defined.

Lemma display_name_wins_witness :
  Scraper.resolve_username Samples.operator_block = Ok (py "Soeur BonPlan 🎀").
Proof.
  apply (display_name_wins Samples.operator_block (py "@soeurbonplan")
           (py "Soeur BonPlan 🎀")); vm_compute; reflexivity.
Defined.

Lemma username_from_profile_link_witness :
  Scraper.username_from_link Samples.operator_block = Ok (py "@soeurbonplan").
Proof.
  apply (username_from_profile_link Samples.operator_block
           {| Scraper.href := Ok (Some (py "https://www.tiktok.com/@soeurbonplan?lang=fr"));
              Scraper.link_text := Ok (py "Soeur Bonplan 🎀") |}
           (py "https://www.tiktok.com") (py "soeurbonplan") (py "?lang=fr")).
  - reflexivity.
  - reflexivity.
  - vm_compute. repeat constructor; discriminate.
  - vm_compute. repeat constructor; discriminate.
  - right. eexists. vm_compute. reflexivity.
Defined.

(** ** Reply submission: the steps before the publish button *)

Section ReplyMore.
Import Scraper.
Context {W : Type}.
Variable h : Eff.world Scraper.answer W.

(** When a step before the publish button raises, [reply_to_comment]
    raises the same exception and stops there: the calls made are those of
    the failed preparation, nothing is retried and no button is looked for. *)
Theorem reply_stops_at_failure video_url username reply_text w e w1 calls1 :
  Eff.exec h (prepare_reply video_url username reply_text) w = (Raise e, w1, calls1) ->
  Eff.exec h (reply_to_comment video_url username reply_text) w = (Raise e, w1, calls1).
Proof. intros H. rewrite reply_to_comment_run, H. reflexivity. Qed.

(** One turn of the target loop never raises. *)
Lemma target_test_never_raises username block w :
  exists hit,
    (Eff.exec h
       (Eff.try_except
          (Eff.bind (call (find_element_in block username_link_xpath) eq_refl)
                    (matches_user username))
          (fun _ => Eff.Ret (Ok false))) w).1.1 = Ok hit.
Proof.
  rewrite exec_try_except.
  destruct (Eff.exec h _ w) as [[[hit | e] w1] l1]; cbn; eauto.
Qed.

(** X12: the search for the target comment never raises, whatever the page
    answers: a block whose link lookup or test fails is passed over, and the
    block found, if any, is one of the listed blocks. *)
Theorem find_target_total username comment_blocks w :
  exists target,
    Eff.result h (find_target username comment_blocks) w = Ok target
    /\ forall block, target = Some block -> In block comment_blocks.
Proof.
  unfold Eff.result. revert w.
  induction comment_blocks as [| b rest IH]; intros w.
  - exists None. split; [reflexivity | discriminate].
  - cbn [find_target]. rewrite exec_bind.
    destruct (target_test_never_raises username b w) as [hit Hhit].
    destruct (Eff.exec h (Eff.try_except _ _) w) as [[r w1] l1].
    cbn [fst] in Hhit. subst r. destruct hit.
    + exists (Some b). split; [reflexivity |]. intros block [= <-]. left. reflexivity.
    + destruct (IH w1) as (target & Hres & Hin).
      destruct (Eff.exec h (find_target username rest) w1) as [[r w2] l2].
      cbn [fst] in Hres. subst r. exists target. split; [reflexivity |].
      intros block Hb. right. apply Hin, Hb.
Qed.


(** When the first reply-input selector times out, the second one is
    tried; an input found there is used, and when that one times out too no
    input is found. *)
Theorem find_reply_input_fallback w w1 :
  h (wait_visible 10 (py "//div[@class='public-DraftEditorPlaceholder-inner' and contains(text(), 'Ajouter une réponse')]/following::div[@contenteditable='true'][1]")) w
  = (Raise TimeoutException, w1) ->
  (forall reply_input w2,
     h (wait_visible 10 (py "//div[@contenteditable='true' and @role='textbox']")) w1
     = (Ok reply_input, w2) ->
     Eff.result h (find_reply_input reply_input_selectors) w = Ok (Some reply_input))
  /\ (forall w2,
        h (wait_visible 10 (py "//div[@contenteditable='true' and @role='textbox']")) w1
        = (Raise TimeoutException, w2) ->
        Eff.result h (find_reply_input reply_input_selectors) w = Ok None)
  /\ (forall e w2,
        e <> TimeoutException ->
        h (wait_visible 10 (py "//div[@contenteditable='true' and @role='textbox']")) w1
        = (Raise e, w2) ->
        Eff.result h (find_reply_input reply_input_selectors) w = Raise e).
Proof.
  intros Hfirst. unfold Eff.result, reply_input_selectors.
  cbn [find_reply_input Eff.exec]. rewrite Hfirst. cbn [Eff.exec].
  split; [| split].
  - intros ri w2 H2. rewrite H2. reflexivity.
  - intros w2 H2. rewrite H2. reflexivity.
  - intros e w2 He H2. rewrite H2. destruct e; try reflexivity. congruence.
Qed.

(** X14: when copying the reply to the clipboard raises, the reply text
    itself is typed into the input, and the method goes on as after a
    paste. *)
Theorem enter_reply_types_when_copy_fails reply_input reply_text
    w w1 u1 w2 w3 u2 w4 e w5 w6 :
  h (execute_script scrollIntoView reply_input) w = (Ok tt, w1) ->
  h (sleep (1 # 2)) w1 = (u1, w2) ->
  h (execute_script click reply_input) w2 = (Ok tt, w3) ->
  h (sleep (1 # 2)) w3 = (u2, w4) ->
  h (pyperclip_copy reply_text) w4 = (Raise e, w5) ->
  h (send_keys reply_input [reply_text]) w5 = (Ok tt, w6) ->
  Eff.result h (enter_reply reply_input reply_text) w = Ok tt
  /\ Eff.calls h (enter_reply reply_input reply_text) w
     = [execute_script scrollIntoView reply_input; sleep (1 # 2);
        execute_script click reply_input; sleep (1 # 2);
        pyperclip_copy reply_text; send_keys reply_input [reply_text]; sleep 2].
Proof.
  intros Hs Hz1 Hc Hz2 Hcopy Htype. unfold Eff.result, Eff.calls, enter_reply, call, do_sleep.
  cbn [Eff.bind Eff.try_except Eff.exec]. rewrite Hs.
  cbn [eq_rect Eff.bind Eff.try_except Eff.exec]. rewrite Hz1.
  cbn [eq_rect Eff.bind Eff.try_except Eff.exec]. rewrite Hc.
  cbn [eq_rect Eff.bind Eff.try_except Eff.exec]. rewrite Hz2.
  cbn [eq_rect Eff.bind Eff.try_except Eff.exec]. rewrite Hcopy.
  cbn [eq_rect Eff.bind Eff.try_except Eff.exec]. rewrite Htype.
  cbn [eq_rect Eff.bind Eff.try_except Eff.exec].
  destruct (h (sleep 2) w6) as [u3 w7]. split; reflexivity.
Qed.

End ReplyMore.

Lemma reply_stops_at_failure_witness :
  Eff.result (Samples.page [20%N; 21%N])
    (Scraper.reply_to_comment Samples.video_url (py "inconnue") (py "Coucou")) tt
  = Raise (Exception_ (py "Commentaire de inconnue non trouvé"))
  /\ length (Eff.calls (Samples.page [20%N; 21%N])
               (Scraper.reply_to_comment Samples.video_url (py "inconnue") (py "Coucou")) tt)
     = 5%nat.
Proof.
  eassert (Hprep :
    Eff.exec (Samples.page [20%N; 21%N])
      (Scraper.prepare_reply Samples.video_url (py "inconnue") (py "Coucou")) tt
    = (Raise _, _, _)) by (vm_compute; reflexivity).
  unfold Eff.result, Eff.calls.
  rewrite (reply_stops_at_failure _ _ _ _ _ _ _ _ Hprep). split; reflexivity.
Defined.


Lemma find_reply_input_fallback_witness :
  Eff.result MoreSamples.degraded_page
    (Scraper.find_reply_input Scraper.reply_input_selectors) tt
  = Ok (Some 13%N).
Proof.
  apply (find_reply_input_fallback MoreSamples.degraded_page tt tt eq_refl) with (w2 := tt).
  reflexivity.
Defined.

Lemma enter_reply_types_when_copy_fails_witness :
  Eff.result MoreSamples.degraded_page (Scraper.enter_reply 13%N (py "Coucou Fatima")) tt
  = Ok tt.
Proof.
  apply (enter_reply_types_when_copy_fails MoreSamples.degraded_page 13%N
           (py "Coucou Fatima") tt tt tt tt tt tt tt PyperclipException tt tt);
    reflexivity.
Defined.

(** ** The store: updates that miss, updates that follow one another *)

Section StoreMore.
Import Database.

Lemma update_where_id_miss db comment_id set :
  get_comment db comment_id = None -> update_where_id comment_id set db = db.
Proof.
  destruct db as [rows]. unfold get_comment, update_where_id. cbn [comments].
  intros H. f_equal. induction rows as [| r rs IH]; [reflexivity |].
  cbn [find map] in *. destruct (bool_decide (id r = comment_id)); [discriminate |].
  f_equal. apply IH, H.
Qed.

Lemma update_where_id_twice db comment_id first second :
  (forall r, id (first r) = id r) ->
  update_where_id comment_id second (update_where_id comment_id first db)
  = update_where_id comment_id (fun r => second (first r)) db.
Proof.
  intros Hid. unfold update_where_id. cbn [comments]. f_equal.
  rewrite map_map. apply map_ext. intros r.
  destruct (bool_decide_reflect (id r = comment_id)) as [E | NE].
  - rewrite bool_decide_eq_true_2 by (rewrite Hid; exact E). reflexivity.
  - rewrite bool_decide_eq_false_2 by exact NE. reflexivity.
Qed.

Lemma update_where_id_ids db comment_id set :
  (forall r, id (set r) = id r) ->
  map id (comments (update_where_id comment_id set db)) = map id (comments db).
Proof.
  intros Hid. unfold update_where_id. cbn [comments]. rewrite map_map.
  apply map_ext. intros r. destruct (bool_decide (id r = comment_id)); [apply Hid | reflexivity].
Qed.

(** X15: an update that names an id the table does not hold changes
    nothing and reports nothing: the store after it is the store before. *)
Theorem update_unknown_id (now : Z) db comment_id :
  get_comment db comment_id = None ->
  (forall status, update_comment_status now db comment_id status = db)
  /\ (forall new_response status,
        update_comment_response now db comment_id new_response status = db).
Proof.
  intros H. split; intros; apply update_where_id_miss, H.
Qed.

(** X16: of two updates of the same comment the later one decides: a second
    status update leaves the store as if the first had not happened, a reply
    update wipes what any earlier update wrote, and a status update after a
    reply update keeps the new reply text under the new status. *)
Theorem update_absorbs (now1 now2 : Z) db comment_id s1 s2 t1 t2 :
  update_comment_status now2 (update_comment_status now1 db comment_id s1) comment_id s2
  = update_comment_status now2 db comment_id s2
  /\ update_comment_response now2 (update_comment_status now1 db comment_id s1)
       comment_id t2 s2
     = update_comment_response now2 db comment_id t2 s2
  /\ update_comment_response now2 (update_comment_response now1 db comment_id t1 s1)
       comment_id t2 s2
     = update_comment_response now2 db comment_id t2 s2
  /\ update_comment_status now2 (update_comment_response now1 db comment_id t1 s1)
       comment_id s2
     = update_comment_response now2 db comment_id t1 s2.
Proof.
  unfold update_comment_status, update_comment_response.
  repeat split; rewrite update_where_id_twice by reflexivity; reflexivity.
Qed.

End StoreMore.

Lemma update_unknown_id_witness :
  Database.update_comment_status 300 (App.db Samples.store) 99 (py "validated")
  = App.db Samples.store.
Proof. apply (update_unknown_id 300 (App.db Samples.store) 99). reflexivity. Defined.

(** ** The endpoints: what a request leaves alone, and what gets through *)

Section EndpointMore.
Import Database App.
Variable str_exn : exn -> pystr.
Variable now : Z.

(** X17: a moderation request touches at most the comment it names: the
    background tasks, the ids of the table in their order, and every other
    comment are as before. *)
Theorem moderation_frame (v : ValidateComment) (st : state) :
  background_tasks (validate_comment str_exn now v st).2 = background_tasks st
  /\ map id (comments (db (validate_comment str_exn now v st).2)) = map id (comments (db st))
  /\ forall other,
       other <> comment_id v ->
       get_comment (db (validate_comment str_exn now v st).2) other
       = get_comment (db st) other.
Proof.
  unfold validate_comment.
  destruct (get_comment (db st) (comment_id v)) as [row |]; cbn [or_500 snd];
    [| repeat split; reflexivity].
  unfold update_comment_status, update_comment_response.
  repeat match goal with
         | |- context [if bool_decide ?P then _ else _] => destruct (bool_decide P)
         | |- context [match modified_response v with _ => _ end] =>
             destruct (modified_response v) as [text |]
         | |- context [if truthy ?t then _ else _] => destruct (truthy t)
         end;
    cbn [set_db db background_tasks];
    (split; [reflexivity |]);
    (split; [try reflexivity; apply update_where_id_ids; reflexivity |]);
    intros other Hne; try reflexivity;
    (apply get_comment_update_other; [exact Hne | reflexivity]).
Qed.


(** A modify request whose text is the empty string is acknowledged
    like any other and changes nothing. *)
Theorem moderation_empty_text (v : ValidateComment) (st : state) (row : comment_row) :
  get_comment (db st) (comment_id v) = Some row ->
  action v = py "modify" ->
  modified_response v = Some [] ->
  validate_comment str_exn now v st = (Ok (ack v), st).
Proof.
  intros Hrow Ha Hm. unfold validate_comment. rewrite Hrow, Hm.
  rewrite (bool_decide_eq_false_2 (action v = py "validate"))
    by (rewrite Ha; literal_neq).
  rewrite (bool_decide_eq_false_2 (action v = py "reject"))
    by (rewrite Ha; literal_neq).
  rewrite (bool_decide_eq_true_2 _ Ha). reflexivity.
Qed.


End EndpointMore.

Lemma moderation_frame_witness :
  Database.get_comment
    (App.db (App.validate_comment Samples.str_exn 300
               {| App.comment_id := 1; App.action := py "reject";
                  App.modified_response := None |} Samples.store).2) 2
  = Some Samples.validated_row.
Proof.
  rewrite (proj2 (proj2 (moderation_frame Samples.str_exn 300
                           {| App.comment_id := 1; App.action := py "reject";
                              App.modified_response := None |} Samples.store)) 2);
    [reflexivity | discriminate].
Defined.


Lemma moderation_empty_text_witness :
  App.validate_comment Samples.str_exn 300
    {| App.comment_id := 3; App.action := py "modify"; App.modified_response := Some [] |}
    Samples.store
  = (Ok (App.ack {| App.comment_id := 3; App.action := py "modify";
                    App.modified_response := Some [] |}),
     Samples.store).
Proof.
  apply (moderation_empty_text Samples.str_exn 300 _ Samples.store Samples.pending_row);
    reflexivity.
Defined.


(** ** The single-comment path *)

Section SingleFacts.
Import AIHandler SingleResponse.
Context {W : Type}.
Variable h : Eff.world AIHandler.answer W.
Variable self : AIResponseGenerator.

Lemma generate_single_run username comment_text video_title hashtags w :
  let request :=
    chat_completions_create
      (single_request self (single_prompt username comment_text video_title hashtags)) in
  Eff.exec h (generate_single_response self username comment_text video_title hashtags) w
  = (Ok match rbind (h request w).1 first_content with
        | Ok ai_response => check_length ai_response
        | Raise _ => single_fallback username
        end,
     (h request w).2, [request]).
Proof.
  intros request. unfold generate_single_response.
  cbn [Eff.try_except Eff.bind Eff.exec]. fold request.
  destruct (h request w) as [[response | e] w1];
    cbn [Eff.try_except Eff.bind Eff.exec Eff.pure rbind fst snd]; [| reflexivity].
  destruct (first_content response) as [text | e]; reflexivity.
Qed.

Lemma check_length_truncate ai_response :
  check_length ai_response = truncate_response ai_response 114.
Proof.
  unfold check_length, truncate_response.
  destruct (Z.ltb_spec 114 (len ai_response)), (Z.leb_spec (len ai_response) 114);
    try lia; reflexivity.
Qed.

(** X20: when the completion succeeds, the single-comment generator returns
    the stripped completion text passed through the same truncation as
    [truncate_response] at 114: a reply of at most 114 characters, after
    exactly one request. *)
Theorem generate_single_bounded username comment_text video_title hashtags w response
    content :
  let request :=
    chat_completions_create
      (single_request self (single_prompt username comment_text video_title hashtags)) in
  (h request w).1 = Ok response ->
  nth_error response 0 = Some (Some content) ->
  Eff.result h (generate_single_response self username comment_text video_title hashtags) w
  = Ok (truncate_response (strip content) 114)
  /\ len (truncate_response (strip content) 114) <= 114
  /\ Eff.calls h (generate_single_response self username comment_text video_title hashtags) w
     = [request].
Proof.
  intros request Hcall Hfirst. unfold Eff.result, Eff.calls.
  rewrite generate_single_run. fold request. rewrite Hcall. cbn [rbind fst snd].
  unfold first_content, index. rewrite Hfirst. cbn [rbind].
  rewrite check_length_truncate. split; [reflexivity |]. split; [| reflexivity].
  destruct (Z.le_gt_cases (len (strip content)) 114) as [Hle | Hgt].
  - rewrite truncate_short by exact Hle. exact Hle.
  - rewrite truncate_long_len by lia. lia.
Qed.

(** X21: when the request raises, or the completion has no choice or no
    content, the single-comment generator does not raise: it returns the
    canned reply built around the user name. That reply is not
    length-checked: it has the length of the name plus 31, so it passes 114
    as soon as the name is longer than 83 characters. *)
Theorem generate_single_fallback username comment_text video_title hashtags w e :
  let request :=
    chat_completions_create
      (single_request self (single_prompt username comment_text video_title hashtags)) in
  rbind (h request w).1 first_content = Raise e ->
  Eff.result h (generate_single_response self username comment_text video_title hashtags) w
  = Ok (py "Hello " ++ username ++ py "! Merci pour ton message ")
  /\ len (py "Hello " ++ username ++ py "! Merci pour ton message ") = len username + 31
  /\ (83 < len username ->
      validate_response_length
        (py "Hello " ++ username ++ py "! Merci pour ton message ") 114 = false).
Proof.
  intros request He. unfold Eff.result. rewrite generate_single_run. fold request.
  rewrite He. cbn [fst].
  assert (Hlen : len (py "Hello " ++ username ++ py "! Merci pour ton message ")
                 = len username + 31).
  { unfold len. rewrite !length_app.
    change (length (py "Hello ")) with 6%nat.
    change (length (py "! Merci pour ton message ")) with 25%nat. lia. }
  split; [reflexivity |]. split; [exact Hlen |].
  intros Hlong. unfold validate_response_length. apply Z.leb_gt. lia.
Qed.

End SingleFacts.

Lemma generate_single_bounded_witness :
  Eff.result (Samples.answering (Ok [Some (repeat 97%N 200)]))
    (SingleResponse.generate_single_response Samples.self (py "fatima_dz")
       (py "Super vidéo") Samples.video_title Samples.hashtags) tt
  = Ok (AIHandler.truncate_response (strip (repeat 97%N 200)) 114).
Proof.
  apply (generate_single_bounded (Samples.answering (Ok [Some (repeat 97%N 200)]))
           Samples.self (py "fatima_dz") (py "Super vidéo") Samples.video_title
           Samples.hashtags tt [Some (repeat 97%N 200)] (repeat 97%N 200));
    reflexivity.
Defined.

Lemma generate_single_fallback_witness :
  Eff.result (Samples.answering (Raise APIError))
    (SingleResponse.generate_single_response Samples.self (py "fatima_dz")
       (py "Super vidéo") Samples.video_title Samples.hashtags) tt
  = Ok (py "Hello " ++ py "fatima_dz" ++ py "! Merci pour ton message ")
  /\ AIHandler.validate_response_length
       (py "Hello " ++ repeat 97%N 84 ++ py "! Merci pour ton message ") 114 = false.
Proof.
  split.
  - apply (generate_single_fallback (Samples.answering (Raise APIError)) Samples.self
             (py "fatima_dz") (py "Super vidéo") Samples.video_title Samples.hashtags tt
             APIError).
    reflexivity.
  - apply (generate_single_fallback (Samples.answering (Raise APIError)) Samples.self
             (repeat 97%N 84) (py "Super vidéo") Samples.video_title Samples.hashtags tt
             APIError); [reflexivity | vm_compute; reflexivity].
Defined.

(** ** Title and hashtags of the video *)

Section VideoInfoFacts.
Import VideoInfo.

Lemma title_loop_first_visible p before selector after text video_title :
  Forall (fun s => passed_over (title_text p s)) before ->
  title_text p selector = Ok text ->
  truthy (strip text) = true ->
  title_loop p (before ++ selector :: after) video_title = Ok (strip text).
Proof.
  intros Hbefore Hsel Hvisible. revert video_title.
  induction Hbefore as [| s before Hs _ IH]; intros video_title; cbn [app title_loop].
  - rewrite Hsel. cbn. rewrite Hvisible. reflexivity.
  - destruct Hs as [-> | (t & -> & Hblank)]; [apply IH |].
    cbn. rewrite Hblank. cbn [truthy]. apply IH.
Qed.

(** X22: the title is the stripped text of the first selector, in the
    order of the list, whose node is there with a text that is not blank;
    the selectors before it are passed over and those after it are not
    tried. The hashtags are those the hashtag lookup gave. *)
Theorem video_title_first_visible p before selector after text tags :
  title_selectors = before ++ selector :: after ->
  Forall (fun s => passed_over (title_text p s)) before ->
  title_text p selector = Ok text ->
  truthy (strip text) = true ->
  hashtag_list p = Ok tags ->
  _extract_video_info p = {| title := strip text; hashtags := tags |}.
Proof.
  intros Hsplit Hbefore Hsel Hvisible Htags. unfold _extract_video_info.
  rewrite Hsplit, (title_loop_first_visible _ _ _ _ _ _ Hbefore Hsel Hvisible).
  cbn [rbind]. rewrite Htags. reflexivity.
Qed.

Lemma title_loop_all_missing p selectors video_title :
  Forall (fun s => title_text p s = Raise NoSuchElementException) selectors ->
  title_loop p selectors video_title = Ok video_title.
Proof.
  induction 1 as [| s selectors Hs _ IH]; cbn [title_loop]; [reflexivity |].
  rewrite Hs. exact IH.
Qed.

Lemma title_loop_last_blank p selectors selector text video_title :
  Forall (fun s => passed_over (title_text p s)) selectors ->
  title_text p selector = Ok text ->
  strip text = [] ->
  title_loop p (selector :: selectors) video_title = Ok [].
Proof.
  intros Hrest Hsel Hblank. cbn [title_loop]. rewrite Hsel. cbn. rewrite Hblank.
  cbn [truthy]. clear Hsel Hblank.
  induction Hrest as [| s selectors Hs _ IH]; cbn [title_loop]; [reflexivity |].
  destruct Hs as [-> | (t & -> & Hb)]; [exact IH |].
  cbn. rewrite Hb. cbn [truthy]. exact IH.
Qed.

(** X23: when no title node is there at all, the title is "Unknown Title";
    but when the first title node is there with a blank text and no later
    selector gives a visible text, the title is the empty string, not the
    placeholder. *)
Theorem video_title_missing_or_blank p tags :
  hashtag_list p = Ok tags ->
  (Forall (fun s => title_text p s = Raise NoSuchElementException) title_selectors ->
   _extract_video_info p = {| title := py "Unknown Title"; hashtags := tags |})
  /\ (forall text,
        title_text p (py "//h1[@data-e2e='video-title']") = Ok text ->
        strip text = [] ->
        Forall (fun s => passed_over (title_text p s)) title_selectors ->
        _extract_video_info p = {| title := []; hashtags := tags |}).
Proof.
  intros Htags. split.
  - intros Hall. unfold _extract_video_info.
    rewrite (title_loop_all_missing _ _ _ Hall). cbn [rbind]. rewrite Htags. reflexivity.
  - intros text Hfirst Hblank Hall. unfold _extract_video_info.
    unfold title_selectors in *. inversion Hall as [| s rest _ Hrest]; subst.
    rewrite (title_loop_last_blank _ _ _ _ _ Hrest Hfirst Hblank).
    cbn [rbind]. rewrite Htags. reflexivity.
Qed.

(** X24: when reading the hashtags raises (a lookup fails with something
    else than a missing node, or the text of a hashtag link cannot be read),
    the whole result collapses to the title "Unknown" with no hashtag, even
    though a title had been found. *)
Theorem video_info_collapses p e :
  hashtag_list p = Raise e ->
  _extract_video_info p = {| title := py "Unknown"; hashtags := [] |}.
Proof.
  intros He. unfold _extract_video_info.
  destruct (title_loop p title_selectors (py "Unknown Title")) as [t | e'];
    cbn [rbind]; [rewrite He |]; reflexivity.
Qed.

End VideoInfoFacts.

Lemma video_title_first_visible_witness :
  VideoInfo._extract_video_info MoreSamples.video_page
  = {| VideoInfo.title := strip (py " Mes bons plans du mois ");
       VideoInfo.hashtags := [py "#bonplan"; py "#muslim"] |}.
Proof.
  apply (video_title_first_visible MoreSamples.video_page
           [py "//h1[@data-e2e='video-title']";
            py "//h1[contains(@class, 'video-meta-title')]"]
           (py "//span[@data-e2e='new-desc-span']") []
           (py " Mes bons plans du mois ")).
  - reflexivity.
  - apply Forall_cons; [left; reflexivity |].
    apply Forall_cons; [right; exists (py "  "); split; reflexivity |].
    apply Forall_nil.
  - reflexivity.
  - reflexivity.
  - reflexivity.
Defined.

Lemma video_title_missing_or_blank_witness :
  VideoInfo._extract_video_info
    {| VideoInfo.title_text := fun _ => Raise NoSuchElementException;
       VideoInfo.hashtag_texts := fun _ => Ok [] |}
  = {| VideoInfo.title := py "Unknown Title"; VideoInfo.hashtags := [] |}
  /\ VideoInfo._extract_video_info
       {| VideoInfo.title_text := fun _ => Ok (py " ");
          VideoInfo.hashtag_texts := fun _ => Ok [] |}
     = {| VideoInfo.title := []; VideoInfo.hashtags := [] |}.
Proof.
  split.
  - apply (video_title_missing_or_blank
             {| VideoInfo.title_text := fun _ => Raise NoSuchElementException;
                VideoInfo.hashtag_texts := fun _ => Ok [] |} []); [reflexivity |].
    repeat (apply Forall_cons; [reflexivity |]). apply Forall_nil.
  - apply (video_title_missing_or_blank
             {| VideoInfo.title_text := fun _ => Ok (py " ");
                VideoInfo.hashtag_texts := fun _ => Ok [] |} [] eq_refl) with (text := py " ").
    + reflexivity.
    + reflexivity.
    + repeat (apply Forall_cons; [right; exists (py " "); split; reflexivity |]).
      apply Forall_nil.
Defined.

Lemma video_info_collapses_witness :
  VideoInfo._extract_video_info MoreSamples.stale_video_page
  = {| VideoInfo.title := py "Unknown"; VideoInfo.hashtags := [] |}.
Proof.
  apply (video_info_collapses MoreSamples.stale_video_page WebDriverException).
  reflexivity.
Defined.

(** ** Sequencing *)

Section SeqFacts.
Import Seq.
Context {cmd : Type} {answer : cmd -> Type} {W : Type}.
Variable h : Eff.world answer W.

Lemma exec_and_then {A B} (m : Eff.prog answer A) (f : A -> Eff.prog answer B) (w : W) :
  Eff.exec h (and_then m f) w
  = match Eff.exec h m w with
    | (a, w1, l1) =>
        match Eff.exec h (f a) w1 with
        | (b, w2, l2) => (b, w2, l1 ++ l2)
        end
    end.
Proof.
  revert w. induction m as [a | c k IH]; intros w; cbn [and_then Eff.exec].
  - destruct (Eff.exec h (f a) w) as [[b w2] l2]. reflexivity.
  - destruct (h c w) as [x w1]. rewrite IH.
    destruct (Eff.exec h (k x) w1) as [[a w2] l1].
    destruct (Eff.exec h (f a) w2) as [[b w3] l2]. reflexivity.
Qed.

End SeqFacts.

(** ** The publication task *)

Section TaskFacts.
Import Database Seq Tasks.
Context {W : Type}.
Variable h : Eff.world Tasks.answer W.
Variable now : Z.

Lemma same_comment_refl r : same_comment r r.
Proof. repeat split. Qed.

Lemma same_comment_with_status s r : same_comment r (with_status s now r).
Proof. repeat split. Qed.

Lemma same_comment_trans r1 r2 r3 :
  same_comment r1 r2 -> same_comment r2 r3 -> same_comment r1 r3.
Proof.
  unfold same_comment. intros (? & ? & ? & ? & ? & ? & ?) (? & ? & ? & ? & ? & ? & ?).
  repeat split; congruence.
Qed.

Lemma Forall2_map_left {A B C} (f : A -> B) (P : B -> C -> Prop) l k :
  Forall2 P (map f l) k -> Forall2 (fun a c => P (f a) c) l k.
Proof.
  revert k. induction l as [| a l IH]; intros k H; inversion H; subst; constructor; auto.
Qed.

Lemma Forall2_diag {A} (P : A -> A -> Prop) l : (forall x, P x x) -> Forall2 P l l.
Proof. intros H. induction l; constructor; auto. Qed.

Lemma Forall2_weaken {A B} (P Q : A -> B -> Prop) l k :
  Forall2 P l k -> (forall x y, In x l -> P x y -> Q x y) -> Forall2 Q l k.
Proof.
  induction 1 as [| x y l k Hxy _ IH]; intros H; constructor.
  - apply H; [left; reflexivity | exact Hxy].
  - apply IH. intros a b Ha. apply H. right. exact Ha.
Qed.

Lemma Forall2_right {A B} (P : A -> B -> Prop) (Q : B -> Prop) l k :
  Forall2 P l k -> (forall x y, In x l -> P x y -> Q y) -> Forall Q k.
Proof.
  induction 1 as [| x y l k Hxy _ IH]; intros H; constructor.
  - apply (H x); [left; reflexivity | exact Hxy].
  - apply IH. intros a b Ha. apply (H a). right. exact Ha.
Qed.

Lemma publish_each_rows comments db0 w :
  Forall2 (loop_outcome (map id comments))
    (Database.comments db0)
    (Database.comments (Eff.exec h (publish_each now comments db0) w).1.1).
Proof.
  revert db0 w. induction comments as [| c rest IH]; intros db0 w.
  - cbn. apply Forall2_diag. intros r.
    split; [apply same_comment_refl |]. split; [| reflexivity].
    intros Hin. inversion Hin.
  - cbn [publish_each]. rewrite exec_and_then.
    destruct (Eff.exec h (on_driver _) w) as [[outcome w1] l1].
    set (s := match outcome with Ok _ => py "published" | Raise _ => py "failed" end).
    assert (Hs : attempted s) by (destruct outcome; [left | right]; reflexivity).
    assert (Hnext :
      Eff.exec h
        (match outcome with
         | Ok _ => publish_each now rest (update_comment_status now db0 (id c) (py "published"))
         | Raise _ => publish_each now rest (update_comment_status now db0 (id c) (py "failed"))
         end) w1
      = Eff.exec h (publish_each now rest (update_comment_status now db0 (id c) s)) w1)
      by (destruct outcome; reflexivity).
    rewrite Hnext. clear Hnext.
    specialize (IH (update_comment_status now db0 (id c) s) w1).
    destruct (Eff.exec h (publish_each now rest _) w1) as [[db' w2] l2].
    cbn [fst] in *.
    unfold update_comment_status, update_where_id in IH. cbn [Database.comments] in IH.
    apply Forall2_map_left in IH.
    eapply Forall2_weaken; [exact IH |].
    intros r r' _ (Hsame & Hin & Hout). cbn beta in *.
    destruct (bool_decide_reflect (id r = id c)) as [E | NE].
    + split; [eapply same_comment_trans; [apply same_comment_with_status | exact Hsame] |].
      split.
      * intros _. destruct (decide (id r ∈ map id rest)) as [Hr | Hr].
        -- apply Hin. exact Hr.
        -- rewrite (Hout Hr). exact Hs.
      * intros Hnot. exfalso. apply Hnot. cbn [map]. rewrite E. left.
    + split; [exact Hsame |]. split.
      * intros Hr. cbn [map] in Hr. apply elem_of_cons in Hr as [Hr | Hr]; [congruence |].
        apply Hin, Hr.
      * intros Hnot. apply Hout. intros Hr. apply Hnot. cbn [map]. right. exact Hr.
Qed.

Lemma stored_id_selected db0 ids r :
  In r (Database.comments db0) ->
  (id r ∈ map id (get_comments_by_ids db0 ids) <-> id r ∈ ids).
Proof.
  intros Hr. apply list_elem_of_In in Hr. unfold get_comments_by_ids. split.
  - intros Hin. apply list_elem_of_In, in_map_iff in Hin as (r0 & Heq & Hr0).
    apply list_elem_of_In, list_elem_of_filter in Hr0 as [Hid _]. rewrite <- Heq. exact Hid.
  - intros Hid. apply list_elem_of_In, in_map_iff. exists r. split; [reflexivity |].
    apply list_elem_of_In, list_elem_of_filter. split; assumption.
Qed.

(** X25: whatever the browser does, the publication task changes nothing
    in the store but status and update time, and those only on comments it
    was asked to publish: every row keeps its place, its id, its video, its
    author, its text and its reply, and a row whose id is not in the request
    is left exactly as it was. *)
Theorem publishing_frame comment_ids account_id g w :
  Forall2 (fun r r' => same_comment r r' /\ (id r ∉ comment_ids -> r' = r))
    (Database.comments (db g))
    (Database.comments
       (db (Eff.exec h (process_comment_publishing now comment_ids account_id g) w).1.1.2)).
Proof.
  assert (Hsame : Forall2 (fun r r' => same_comment r r' /\ (id r ∉ comment_ids -> r' = r))
                    (Database.comments (db g)) (Database.comments (db g))).
  { apply Forall2_diag. intros r. split; [apply same_comment_refl | reflexivity]. }
  unfold process_comment_publishing. rewrite exec_and_then.
  destruct (Eff.exec h (if scraper g then _ else _) w) as [[[[] | e] w1] l1];
    [| cbn; exact Hsame].
  rewrite exec_and_then.
  pose proof (publish_each_rows (get_comments_by_ids (db g) comment_ids) (db g) w1) as Hloop.
  destruct (Eff.exec h (publish_each now _ (db g)) w1) as [[db' w2] l2].
  cbn [fst] in Hloop. cbn [Eff.exec].
  assert (Hrows : Forall2 (fun r r' => same_comment r r' /\ (id r ∉ comment_ids -> r' = r))
                    (Database.comments (db g)) (Database.comments db')).
  { eapply Forall2_weaken; [exact Hloop |].
    intros r r' Hr (Hs & _ & Hout). split; [exact Hs |].
    intros Hnot. apply Hout. intros Hin. apply Hnot.
    apply (stored_id_selected (db g) comment_ids r Hr), Hin. }
  destruct (h scraper_close w2) as [[[] | e] w3]; cbn [fst snd db]; exact Hrows.
Qed.

(** X26: once the scraper is there (the module holds one, or creating it
    succeeds), every stored comment named by the request ends as
    "published" or "failed", whatever its status was when the task started
    and whatever happened to the comments before it: a failed reply does
    not stop the loop, and the task does not look at the status again. *)
Theorem publishing_attempts_all comment_ids account_id g w :
  scraper g = true \/ (h TikTokScraper_new w).1 = Ok tt ->
  Forall (fun r' => id r' ∈ comment_ids -> attempted (status r'))
    (Database.comments
       (db (Eff.exec h (process_comment_publishing now comment_ids account_id g) w).1.1.2)).
Proof.
  intros Hstarted. unfold process_comment_publishing. rewrite exec_and_then.
  assert (Hcreated : exists w1 l1,
            Eff.exec h (if scraper g then Eff.Ret (Ok tt) else Eff.Call TikTokScraper_new Eff.Ret) w
            = (Ok tt, w1, l1)).
  { destruct Hstarted as [-> | Hnew]; [eexists _, _; reflexivity |].
    destruct (scraper g); [eexists _, _; reflexivity |].
    cbn [Eff.exec]. destruct (h TikTokScraper_new w) as [r w1]. cbn [fst] in Hnew.
    subst r. eexists _, _. reflexivity. }
  destruct Hcreated as (w1 & l1 & ->).
  rewrite exec_and_then.
  pose proof (publish_each_rows (get_comments_by_ids (db g) comment_ids) (db g) w1) as Hloop.
  destruct (Eff.exec h (publish_each now _ (db g)) w1) as [[db' w2] l2].
  cbn [fst] in Hloop. cbn [Eff.exec].
  assert (Hall : Forall (fun r' => id r' ∈ comment_ids -> attempted (status r'))
                   (Database.comments db')).
  { eapply Forall2_right; [exact Hloop |].
    intros r r' Hr (Hsame & Hin & _) Hid. apply Hin.
    destruct Hsame as (Hsid & _).
    apply (stored_id_selected (db g) comment_ids r Hr). rewrite <- Hsid. exact Hid. }
  destruct (h scraper_close w2) as [[[] | e] w3]; cbn [fst snd db]; exact Hall.
Qed.

(** X27: when the module holds no scraper and creating one raises, the
    task ends quietly: it raises nothing, makes no browser call, and leaves
    the store and the globals as they were. No comment becomes "published"
    or "failed". *)
Theorem publishing_without_scraper comment_ids account_id g w e w1 :
  scraper g = false ->
  h TikTokScraper_new w = (Raise e, w1) ->
  Eff.exec h (process_comment_publishing now comment_ids account_id g) w
  = (Ok tt, g, w1, [TikTokScraper_new]).
Proof.
  intros Hnone Hnew. unfold process_comment_publishing. rewrite Hnone.
  cbn [and_then Eff.exec]. rewrite Hnew. reflexivity.
Qed.

End TaskFacts.

Lemma publishing_attempts_all_witness :
  Forall (fun r' => Database.id r' ∈ [2; 3] -> Tasks.attempted (Database.status r'))
    (Database.comments
       (Tasks.db (Eff.exec MoreSamples.one_button_browser
                    (Tasks.process_comment_publishing 400 [2; 3] 1
                       {| Tasks.db := App.db Samples.store; Tasks.scraper := false |})
                    tt).1.1.2)).
Proof.
  apply (publishing_attempts_all MoreSamples.one_button_browser 400 [2; 3] 1
           {| Tasks.db := App.db Samples.store; Tasks.scraper := false |} tt).
  right. reflexivity.
Defined.

Lemma publishing_without_scraper_witness :
  Eff.exec MoreSamples.no_scraper
    (Tasks.process_comment_publishing 400 [2; 3] 1
       {| Tasks.db := App.db Samples.store; Tasks.scraper := false |}) tt
  = (Ok tt, {| Tasks.db := App.db Samples.store; Tasks.scraper := false |}, tt,
     [Tasks.TikTokScraper_new]).
Proof.
  apply (publishing_without_scraper MoreSamples.no_scraper 400 [2; 3] 1
           {| Tasks.db := App.db Samples.store; Tasks.scraper := false |} tt
           (Exception_ (py "name 'TikTokScraper' is not defined")) tt);
    reflexivity.
Defined.

(** ** Saving comments and the ingestion task *)

Section IngestionFacts.
Import Database Seq Ingestion.
Context {W : Type}.
Variable bind_text : json -> pyresult pystr.
Variable json_loads : pystr -> pyresult json.
Variable h : Eff.world Ingestion.answer W.
Variable self : AIHandler.AIResponseGenerator.
Variable now : Z.






Lemma exec_created (g : globals) w w1 :
  scraper g = false ->
  h TikTokScraper_new w = (Ok tt, w1) ->
  Eff.exec h (if scraper g then Eff.Ret (Ok tt) else Eff.Call TikTokScraper_new Eff.Ret) w
  = (Ok tt, w1, [TikTokScraper_new]).
Proof. intros -> Hnew. cbn [Eff.exec]. rewrite Hnew. reflexivity. Qed.


(** X30: the ingestion task saves nothing and does not call the generator
    when scraping raises or returns no comment; it then only closes the
    scraper. *)
Theorem ingestion_without_comments video_url account_id (g : globals) w w1 scraped w2 :
  scraper g = false ->
  h TikTokScraper_new w = (Ok tt, w1) ->
  h (scrape_video video_url) w1 = (scraped, w2) ->
  scraped = Ok [] \/ (exists e, scraped = Raise e) ->
  store (Eff.exec h (process_video_scraping bind_text json_loads self now
                       video_url account_id g) w).1.1.2
  = store g
  /\ Eff.calls h (process_video_scraping bind_text json_loads self now
                    video_url account_id g) w
     = [TikTokScraper_new; scrape_video video_url; scraper_close].
Proof.
  intros Hnone Hnew Hscrape Hempty. unfold Eff.calls.
  unfold process_video_scraping. rewrite exec_and_then.
  rewrite (exec_created g w w1 Hnone Hnew). rewrite exec_and_then.
  unfold scrape_and_save. cbn [Eff.exec]. rewrite Hscrape.
  destruct Hempty as [-> | [e ->]]; cbn [Eff.exec];
    destruct (h scraper_close w2) as [[[] | e'] w3]; split; reflexivity.
Qed.

(** X30: when the module holds no scraper and creating one raises (as it
    does in [app.py] as it stands, where the import of the class is
    commented out), the ingestion task ends quietly: it raises nothing, does
    not scrape, does not call the generator, saves nothing and leaves the
    globals as they were. *)
Theorem ingestion_without_scraper video_url account_id (g : globals) w e w1 :
  scraper g = false ->
  h TikTokScraper_new w = (Raise e, w1) ->
  Eff.exec h (process_video_scraping bind_text json_loads self now video_url account_id g) w
  = (Ok tt, g, w1, [TikTokScraper_new]).
Proof.
  intros Hnone Hnew. unfold process_video_scraping. rewrite Hnone.
  cbn [and_then Eff.exec]. rewrite Hnew. reflexivity.
Qed.

End IngestionFacts.



Lemma ingestion_without_comments_witness :
  Ingestion.store
    (Eff.exec (MoreSamples.ingestion_world (Ok []))
       (Ingestion.process_video_scraping MoreSamples.bind_text Samples.json_loads
          Samples.self 500 Samples.video_url 1
          {| Ingestion.store := MoreSamples.sequenced_store;
             Ingestion.scraper := false |}) tt).1.1.2
  = MoreSamples.sequenced_store.
Proof.
  apply (ingestion_without_comments MoreSamples.bind_text Samples.json_loads
           (MoreSamples.ingestion_world (Ok [])) Samples.self 500 Samples.video_url 1
           {| Ingestion.store := MoreSamples.sequenced_store;
              Ingestion.scraper := false |} tt tt (Ok []) tt);
    [reflexivity | reflexivity | reflexivity | left; reflexivity].
Defined.

Lemma ingestion_without_scraper_witness :
  Eff.exec MoreSamples.ingestion_no_scraper
    (Ingestion.process_video_scraping MoreSamples.bind_text Samples.json_loads
       Samples.self 500 Samples.video_url 1
       {| Ingestion.store := MoreSamples.sequenced_store; Ingestion.scraper := false |}) tt
  = (Ok tt,
     {| Ingestion.store := MoreSamples.sequenced_store; Ingestion.scraper := false |}, tt,
     [Ingestion.TikTokScraper_new]).
Proof.
  apply (ingestion_without_scraper MoreSamples.bind_text Samples.json_loads
           MoreSamples.ingestion_no_scraper Samples.self 500 Samples.video_url 1
           {| Ingestion.store := MoreSamples.sequenced_store; Ingestion.scraper := false |}
           tt (Exception_ (py "name 'TikTokScraper' is not defined")) tt);
    reflexivity.
Defined.

(** The sample store after the publication task on a browser that shows a
    single publish button: the two comments named are marked failed, the
    third one keeps its status. *)
Example publishing_sample_statuses :
  map Database.status
    (Database.comments
       (Tasks.db (Eff.exec MoreSamples.one_button_browser
                    (Tasks.process_comment_publishing 400 [2; 3] 1
                       {| Tasks.db := App.db Samples.store; Tasks.scraper := false |})
                    tt).1.1.2))
  = [py "published"; py "failed"; py "failed"].
Proof. vm_compute. reflexivity. Qed.

(** The sample store after the ingestion task: two rows are appended, with
    ids 8 and 9, for two comments and three replies. *)
Example ingestion_sample_rows :
  map (fun r => (Database.id r, Database.username r, Database.ai_response r,
                 Database.status r))
    (Database.comments
       (Ingestion.table
          (Ingestion.store
             (Eff.exec (MoreSamples.ingestion_world (Ok Samples.comments))
                (Ingestion.process_video_scraping MoreSamples.bind_text Samples.json_loads
                   Samples.self 500 Samples.video_url 1
                   {| Ingestion.store := MoreSamples.sequenced_store;
                      Ingestion.scraper := false |}) tt).1.1.2)))
  = [ (1, py "fatima_dz", py "Coucou Fatima", py "published");
      (2, py "muslima_paris", py "Coucou ma soeur", py "validated");
      (3, py "lina", py "Hello", py "pending");
      (8, py "fatima_dz", py "Coucou Fatima", py "pending");
      (9, py "muslima_paris", py "Coucou ma soeur", py "pending") ].
Proof. vm_compute. reflexivity. Qed.

Lemma find_target_total_witness :
  exists target,
    Eff.result (Samples.page []) (Scraper.find_target (py "inconnue") [10%N; 30%N]) tt
    = Ok target
    /\ forall block, target = Some block -> In block [10%N; 30%N].
Proof.
  exact (find_target_total (Samples.page []) (py "inconnue") [10%N; 30%N] tt).
Defined.

Lemma publishing_frame_witness :
  Forall2 (fun r r' => Tasks.same_comment r r' /\ (Database.id r ∉ [2; 3] -> r' = r))
    (Database.comments (App.db Samples.store))
    (Database.comments
       (Tasks.db (Eff.exec MoreSamples.one_button_browser
                    (Tasks.process_comment_publishing 400 [2; 3] 1
                       {| Tasks.db := App.db Samples.store; Tasks.scraper := false |})
                    tt).1.1.2)).
Proof.
  exact (publishing_frame MoreSamples.one_button_browser 400 [2; 3] 1
           {| Tasks.db := App.db Samples.store; Tasks.scraper := false |} tt).
Defined.
